(** * Payroll engine of the attendance and salary web application

    A shallow embedding of the payroll computation served by
    [GET /api/payroll] (src/server.js), of the settings write path
    ([POST /api/settings], [updateSettings]) and of the per-day pay shown by
    the attendance table of the client (src/public/js/app.js), followed by the
    properties the specification states about them.

    JavaScript numbers are IEEE 754 binary64 values: they are modelled by
    Rocq's primitive floats, so every arithmetic step rounds as it does in the
    engine.  Strings are modelled by [string]; one [ascii] stands for one code
    unit (identifiers, ISO dates and decimal numerals are ASCII). *)

From Stdlib Require Import Floats ZArith List String Ascii Bool Lia.
From Stdlib Require Import DecimalString.
From Stdlib Require Import Permutation.
Import ListNotations.

Set Warnings "-inexact-float".

(** ** ECMAScript numbers: rounding, parsing and printing *)

Module JsNumber.

Local Open Scope Z_scope.

Definition nan : float := PrimFloat.nan.
Definition pos_zero : float := 0%float.
Definition neg_zero : float := (-0)%float.

Definition signed_inf (neg : bool) : float :=
  if neg then PrimFloat.neg_infinity else PrimFloat.infinity.

Definition is_nan (x : float) : bool := negb (PrimFloat.eqb x x).

(** [Math.round]: the integer nearest to [x], ties going towards +infinity;
    NaN, the infinities and both zeros are returned unchanged, and a negative
    [x] that rounds to zero gives -0.  A finite float is [+-m * 2^e]; when
    [e < 0] the result is [floor ((+-2m + 2^-e) / 2^(1-e))]. *)
Definition Math_round (x : float) : float :=
  match Prim2SF x with
  | S754_finite s m e =>
      if 0 <=? e then x
      else
        let d := 2 ^ (- e) in
        let n := (2 * cond_Zopp s (Zpos m) + d) / (2 * d) in
        SF2Prim (binary_normalize prec emax n 0 s)
  | _ => x
  end.

(** The double nearest to [+- m * 10^e10] (round to nearest, ties to even):
    the rounding applied to the mathematical value of a decimal literal. *)
Definition round_decimal (neg : bool) (m e10 : Z) : float :=
  match m with
  | Zpos _ =>
      if 0 <=? e10
      then SF2Prim (binary_normalize prec emax (cond_Zopp neg (m * 10 ^ e10)) 0 neg)
      else
        let '(q, e2, loc) := SFdiv_core_binary prec emax m 0 (10 ^ (- e10)) 0 in
        SF2Prim (binary_round_aux prec emax neg q e2 loc)
  | _ => if neg then neg_zero else pos_zero
  end.

(** *** Scanning numerals *)

Local Open Scope string_scope.

Definition code (c : ascii) : Z := Z.of_N (N_of_ascii c).

(** White space and line terminators among the code units below 256: tab
    to carriage return, the space and the no-break space. *)
Definition is_ws (c : ascii) : bool :=
  let n := code c in
  (((9 <=? n) && (n <=? 13)) || (n =? 32) || (n =? 160))%Z.

Definition digit_of (c : ascii) : option Z :=
  let n := code c in
  if ((48 <=? n) && (n <=? 57))%Z then Some (n - 48)%Z else None.

Fixpoint skip_ws (s : string) : string :=
  match s with
  | String c r => if is_ws c then skip_ws r else s
  | EmptyString => s
  end.

Fixpoint drop (n : nat) (s : string) : string :=
  match n, s with
  | S k, String _ r => drop k r
  | _, _ => s
  end.

(** Reads the longest run of decimal digits: the value accumulated on top of
    [acc], how many digits were read, and what follows them. *)
Fixpoint scan_digits (s : string) (acc count : Z) : Z * Z * string :=
  match s with
  | String c r =>
      match digit_of c with
      | Some d => scan_digits r (10 * acc + d)%Z (count + 1)%Z
      | None => (acc, count, s)
      end
  | EmptyString => (acc, count, s)
  end.

Definition scan_sign (s : string) : bool * string :=
  match s with
  | String "-" r => (true, r)
  | String "+" r => (false, r)
  | _ => (false, s)
  end.

(** An exponent part counts only when at least one digit follows the [e]. *)
Definition scan_exponent (s : string) : Z * string :=
  match s with
  | String c r =>
      if (Ascii.eqb c "e" || Ascii.eqb c "E")%bool then
        let '(neg, r1) := scan_sign r in
        let '(v, k, r2) := scan_digits r1 0 0 in
        if (k =? 0)%Z then (0%Z, s) else (cond_Zopp neg v, r2)
      else (0%Z, s)
  | EmptyString => (0%Z, s)
  end.

(** The longest prefix of [s] that is a StrDecimalLiteral
    ([+-]? ( Infinity | digits [. digits?] [exp] | . digits [exp] )),
    its value and the rest of the string. *)
Definition scan_decimal (s : string) : option (float * string) :=
  let '(neg, s1) := scan_sign s in
  if prefix "Infinity" s1 then Some (signed_inf neg, drop 8 s1)
  else
    let '(m1, n1, s2) := scan_digits s1 0 0 in
    let '(m, n2, s3) :=
      match s2 with
      | String "." r => scan_digits r m1 0
      | _ => (m1, 0%Z, s2)
      end in
    if (n1 + n2 =? 0)%Z then None
    else
      let '(ex, s4) := scan_exponent s3 in
      Some (round_decimal neg m (ex - n2), s4).

(** [parseFloat] on a string. *)
Definition parseFloat_string (s : string) : float :=
  match scan_decimal (skip_ws s) with
  | Some (x, _) => x
  | None => nan
  end.

(** Digits of a non-decimal integer literal ([0x], [0o], [0b]). *)
Definition radix_digit (radix : Z) (c : ascii) : option Z :=
  let n := code c in
  let d :=
    if ((48 <=? n) && (n <=? 57))%Z then n - 48
    else if ((97 <=? n) && (n <=? 102))%Z then n - 87
    else if ((65 <=? n) && (n <=? 70))%Z then n - 55
    else radix in
  if (d <? radix)%Z then Some d else None.

Fixpoint scan_radix (radix : Z) (s : string) (acc : Z) : option Z :=
  match s with
  | String c r =>
      match radix_digit radix c with
      | Some d => scan_radix radix r (radix * acc + d)%Z
      | None => None
      end
  | EmptyString => Some acc
  end.

Definition radix_literal (radix : Z) (s : string) : float :=
  match s with
  | EmptyString => nan
  | _ =>
      match scan_radix radix s 0 with
      | Some v => round_decimal false v 0
      | None => nan
      end
  end.

Fixpoint trim_end (s : string) : string :=
  match s with
  | EmptyString => EmptyString
  | String c r =>
      match trim_end r with
      | EmptyString => if is_ws c then EmptyString else String c EmptyString
      | r' => String c r'
      end
  end.

Definition decimal_literal (s : string) : float :=
  match scan_decimal s with
  | Some (x, EmptyString) => x
  | _ => nan
  end.

(** [ToNumber] on a string (StringToNumber): the whole string, white space
    trimmed at both ends, must be a numeric literal; the empty string is 0. *)
Definition StringToNumber (s : string) : float :=
  let t := trim_end (skip_ws s) in
  match t with
  | EmptyString => pos_zero
  | String "0" (String c r) =>
      if (Ascii.eqb c "x" || Ascii.eqb c "X")%bool then radix_literal 16 r
      else if (Ascii.eqb c "o" || Ascii.eqb c "O")%bool then radix_literal 8 r
      else if (Ascii.eqb c "b" || Ascii.eqb c "B")%bool then radix_literal 2 r
      else decimal_literal t
  | _ => decimal_literal t
  end.

(** *** Printing: Number::toString in radix 10 *)

(** [x = num / den > 0].  The least exponent, searched upwards from [n], whose
    power of ten is above [x]. *)
Fixpoint least_pow10_above (fuel : nat) (num den n : Z) : Z :=
  match fuel with
  | O => n
  | S f =>
      if (if (0 <=? n)%Z then (num <? den * 10 ^ n)%Z else (num * 10 ^ (- n) <? den)%Z)
      then n
      else least_pow10_above f num den (n + 1)%Z
  end.

(** The decimal exponent [n] of [m * 2^e]: [10^(n-1) <= m * 2^e < 10^n].
    The search starts just below the estimate given by the bit length. *)
Definition decimal_exponent (m : positive) (e : Z) : Z :=
  let bits := (Zdigits2 (Zpos m) + e)%Z in
  let guess := ((bits - 1) * 30103 / 100000)%Z in
  let '(num, den) := if (0 <=? e)%Z then (Zpos m * 2 ^ e, 1) else (Zpos m, 2 ^ (- e))%Z in
  least_pow10_above 6 num den (guess - 1)%Z.

(** For [k] digits: the integers [s] next to [x / 10^(n-k)], below and above,
    each with its exponent [n], and which of them is nearer to [x]
    ([Lt]: the lower one, [Gt]: the upper one, [Eq]: a tie). *)
Definition neighbours (m : positive) (e n k : Z) : Z * (Z * Z) * comparison :=
  let '(num, den) := if (0 <=? e)%Z then (Zpos m * 2 ^ e, 1) else (Zpos m, 2 ^ (- e))%Z in
  let '(num', den') :=
    if (0 <=? n - k)%Z then (num, den * 10 ^ (n - k)) else (num * 10 ^ (k - n), den)%Z in
  let lo := (num' / den')%Z in
  let r := (num' - lo * den')%Z in
  let hi := if (lo + 1 =? 10 ^ k)%Z then (10 ^ (k - 1), n + 1)%Z else (lo + 1, n)%Z in
  (lo, hi, (2 * r ?= den')%Z).

(** The shortest digit string that reads back as [x = m * 2^e]: the least
    [k] for which some [s] of [k] digits has [s * 10^(n-k)] rounding to [x],
    and among two such [s] the one nearer to [x] (the even one on a tie). *)
Fixpoint shortest_digits (fuel : nat) (x : float) (m : positive) (e n k : Z) : Z * Z * Z :=
  let '(lo, (hi, nhi), side) := neighbours m e n k in
  let ok_lo := PrimFloat.eqb (round_decimal false lo (n - k)) x in
  let ok_hi := PrimFloat.eqb (round_decimal false hi (nhi - k)) x in
  let pick_lo :=
    match side with
    | Lt => true
    | Gt => false
    | Eq => Z.even lo
    end in
  if (ok_lo && (negb ok_hi || pick_lo))%bool then (lo, k, n)
  else if ok_hi then (hi, k, nhi)
  else
    match fuel with
    | O => (lo, k, n)
    | S f => shortest_digits f x m e n (k + 1)%Z
    end.

Definition digits_of_Z (n : Z) : string :=
  NilZero.string_of_uint (N.to_uint (Z.to_N n)).

Fixpoint zeros (n : nat) : string :=
  match n with
  | O => EmptyString
  | S k => String "0" (zeros k)
  end.

Definition format_digits (s k n : Z) : string :=
  let ds := digits_of_Z s in
  if ((k <=? n) && (n <=? 21))%Z then ds ++ zeros (Z.to_nat (n - k))
  else if ((0 <? n) && (n <=? 21))%Z then
    substring 0 (Z.to_nat n) ds ++ "." ++ drop (Z.to_nat n) ds
  else if ((-6 <? n) && (n <=? 0))%Z then "0." ++ zeros (Z.to_nat (- n)) ++ ds
  else
    let ex := (n - 1)%Z in
    let tail := "e" ++ (if (ex <? 0)%Z then "-" else "+") ++ digits_of_Z (Z.abs ex) in
    if (k =? 1)%Z then ds ++ tail
    else substring 0 1 ds ++ "." ++ drop 1 ds ++ tail.

Definition NumberToString (x : float) : string :=
  match Prim2SF x with
  | S754_nan => "NaN"
  | S754_zero _ => "0"
  | S754_infinity s => if s then "-Infinity" else "Infinity"
  | S754_finite s m e =>
      let '(d, k, n) :=
        shortest_digits 17 (PrimFloat.abs x) m e (decimal_exponent m e) 1 in
      (if s then "-" else "") ++ format_digits d k n
  end.

End JsNumber.

(** ** JavaScript values and operators *)

Module Js.

Import JsNumber.
Local Open Scope string_scope.
Local Open Scope float_scope.

(** The values a JSON column of the record store carries. *)
Inductive JsVal : Type :=
  | JNull
  | JNum (x : float)
  | JStr (s : string).

Definition ToString (v : JsVal) : string :=
  match v with
  | JNull => "null"
  | JNum x => NumberToString x
  | JStr s => s
  end.

Definition ToNumber (v : JsVal) : float :=
  match v with
  | JNull => 0
  | JNum x => x
  | JStr s => StringToNumber s
  end.

(** A number is falsy when it is 0, -0 or NaN. *)
Definition truthy_number (x : float) : bool :=
  negb (PrimFloat.eqb x 0 || is_nan x).

Definition ToBoolean (v : JsVal) : bool :=
  match v with
  | JNull => false
  | JNum x => truthy_number x
  | JStr s => negb (String.eqb s "")
  end.

(** [parseFloat v]: the argument is converted to a string, then scanned. *)
Definition parseFloat (v : JsVal) : float := parseFloat_string (ToString v).

(** [a || b] on values and on numbers. *)
Definition js_or (a b : JsVal) : JsVal := if ToBoolean a then a else b.
Definition num_or (x d : float) : float := if truthy_number x then x else d.

(** [a + b]: concatenation as soon as one operand is a string. *)
Definition js_add (a b : JsVal) : JsVal :=
  match a, b with
  | JStr s, _ => JStr (s ++ ToString b)
  | _, JStr t => JStr (ToString a ++ t)
  | _, _ => JNum (ToNumber a + ToNumber b)
  end.

(** [a > y] and [x <= y] where the right operand is a number. *)
Definition js_gt (a : JsVal) (y : float) : bool := PrimFloat.ltb y (ToNumber a).
Definition num_le (x y : float) : bool := PrimFloat.leb x y.

(** [s || fallback] on a nullable string. *)
Definition str_or (s : option string) (fallback : string) : string :=
  match s with
  | Some t => if String.eqb t "" then fallback else t
  | None => fallback
  end.

(** [Array.prototype.sort] with a comparator: stable; [x] moves behind [y]
    only when the comparator is positive (a NaN result counts as 0).  For a
    consistent comparator every stable sort gives this list.  When the
    comparator is not a consistent order (a NaN from an invalid date among
    valid ones) ECMAScript leaves the order to the engine, and this list is
    one of the orders allowed: nothing but its being a rearrangement of the
    array should then be relied on. *)
Section Sort.
Context {A : Type} (cmp : A -> A -> float).

Fixpoint insert_sorted (x : A) (l : list A) : list A :=
  match l with
  | [] => [x]
  | y :: l' => if PrimFloat.ltb 0 (cmp x y) then y :: insert_sorted x l' else x :: l
  end.

Definition sort (l : list A) : list A := fold_right insert_sorted [] l.
End Sort.

End Js.

(** ** Data model: the rows of the record store *)

Import Js.

Module Employee.
Record t : Type := mk {
  id : string;
  name : string;
  salary : JsVal
}.
End Employee.

Module Attendance.
Record t : Type := mk {
  employeeId : string;
  date : string;
  workedHours : JsVal;
  slabMode : bool;
  sundayMode : bool;
  fare : JsVal
}.
End Attendance.

Module Advance.
Record t : Type := mk {
  employeeId : string;
  amount : JsVal;
  date : option string;
  deductionMonth : option string
}.
End Advance.

Module Payment.
Record t : Type := mk {
  employeeId : string;
  salaryMonth : string;
  amount : JsVal;
  date : string;
  screenshot : option string
}.
End Payment.

Module Settings.
Record t : Type := mk {
  standardHours : JsVal;
  slabHours : JsVal
}.

(** The row [getSettings] falls back to, and the row the store starts with. *)
Definition defaults : t := mk (JNum 8.5) (JNum 6).
End Settings.

Inductive Status : Type := Settled | Partial | Unpaid.

Module Statement.
Record t : Type := mk {
  employee : Employee.t;
  daysWorked : nat;
  salaryEarned : float;
  fareTotal : float;
  advancePaid : float;
  previousBalance : float;
  currentMonthNet : float;
  finalPayable : float;
  paidTotal : JsVal;
  remainingDue : float;
  lastPaymentDate : option string;
  paymentProofs : list string;
  status : Status
}.
End Statement.

(** ** The payroll computation of [GET /api/payroll] *)

Module Payroll.

Import JsNumber.
Local Open Scope string_scope.
Local Open Scope float_scope.

(** [parseFloat(settingsData.standardHours || 8.5)] and
    [parseFloat(settingsData.slabHours || 6)]. *)
Definition stdHours (settingsData : Settings.t) : float :=
  parseFloat (js_or (Settings.standardHours settingsData) (JNum 8.5)).

Definition slabBase (settingsData : Settings.t) : float :=
  parseFloat (js_or (Settings.slabHours settingsData) (JNum 6)).

(** The body of both [forEach] loops over attendance: the pay of one day. *)
Definition dailySalary (stdHours slabBase : float)
    (emp : Employee.t) (att : Attendance.t) : float :=
  let workedHours := parseFloat (Attendance.workedHours att) in
  let salary := parseFloat (Employee.salary emp) in
  let normalRate := salary / stdHours in
  if Attendance.slabMode att then
    if PrimFloat.ltb stdHours workedHours then
      let extraHours := workedHours - stdHours in
      let slabRate := salary / slabBase in
      (normalRate * stdHours) + (slabRate * extraHours)
    else normalRate * workedHours
  else normalRate * workedHours.

(** [parseFloat(att.fare) || 0] and [parseFloat(adv.amount) || 0]. *)
Definition fareOf (att : Attendance.t) : float :=
  num_or (parseFloat (Attendance.fare att)) 0.

Definition amountOf (adv : Advance.t) : float :=
  num_or (parseFloat (Advance.amount adv)) 0.

(** [a.deductionMonth || (a.date ? a.date.substring(0, 7) : '')]. *)
Definition effectiveMonth (a : Advance.t) : string :=
  str_or (Advance.deductionMonth a)
         (match Advance.date a with
          | Some d => if String.eqb d "" then "" else substring 0 7 d
          | None => ""
          end).

(** The predicates of the six [filter] calls: the rows of the employee in
    the month, and the rows of the employee before the month. *)
Definition isEmpAtt (emp : Employee.t) (month : string) (a : Attendance.t) : bool :=
  String.eqb (Attendance.employeeId a) (Employee.id emp)
  && prefix month (Attendance.date a).

Definition isEmpAdv (emp : Employee.t) (month : string) (a : Advance.t) : bool :=
  if negb (String.eqb (Advance.employeeId a) (Employee.id emp)) then false
  else
    let deduct := effectiveMonth a in
    String.eqb deduct month.

Definition isEmpPay (emp : Employee.t) (month : string) (p : Payment.t) : bool :=
  String.eqb (Payment.employeeId p) (Employee.id emp)
  && String.eqb (Payment.salaryMonth p) month.

Definition isPastAtt (emp : Employee.t) (month : string) (a : Attendance.t) : bool :=
  String.eqb (Attendance.employeeId a) (Employee.id emp)
  && String.ltb (Attendance.date a) (month ++ "-01").

Definition isPastAdv (emp : Employee.t) (month : string) (a : Advance.t) : bool :=
  if negb (String.eqb (Advance.employeeId a) (Employee.id emp)) then false
  else
    let deduct := effectiveMonth a in
    String.ltb deduct month.

Definition isPastPay (emp : Employee.t) (month : string) (p : Payment.t) : bool :=
  String.eqb (Payment.employeeId p) (Employee.id emp)
  && String.ltb (Payment.salaryMonth p) month.

Definition empAtt (emp : Employee.t) (month : string)
    (attendance : list Attendance.t) : list Attendance.t :=
  filter (isEmpAtt emp month) attendance.

Definition empAdv (emp : Employee.t) (month : string)
    (advances : list Advance.t) : list Advance.t :=
  filter (isEmpAdv emp month) advances.

Definition empPay (emp : Employee.t) (month : string)
    (payments : list Payment.t) : list Payment.t :=
  filter (isEmpPay emp month) payments.

Definition pastAtt (emp : Employee.t) (month : string)
    (attendance : list Attendance.t) : list Attendance.t :=
  filter (isPastAtt emp month) attendance.

Definition pastAdv (emp : Employee.t) (month : string)
    (advances : list Advance.t) : list Advance.t :=
  filter (isPastAdv emp month) advances.

Definition pastPay (emp : Employee.t) (month : string)
    (payments : list Payment.t) : list Payment.t :=
  filter (isPastPay emp month) payments.

(** The sums. [reduce] and the accumulating [forEach] loops run left to
    right from their initial value. *)
Definition sumPaid (l : list Payment.t) : JsVal :=
  fold_left (fun sum p => js_add sum (Payment.amount p)) l (JNum 0).

Definition sumAdvance (l : list Advance.t) : float :=
  fold_left (fun sum adv => sum + amountOf adv) l 0.

Definition sumSalary (std slab : float) (emp : Employee.t)
    (l : list Attendance.t) : float :=
  fold_left (fun totalSalary att => totalSalary + dailySalary std slab emp att) l 0.

Definition sumFare (l : list Attendance.t) : float :=
  fold_left (fun totalFare att => totalFare + fareOf att) l 0.

Definition sumPastEarnings (std slab : float) (emp : Employee.t)
    (l : list Attendance.t) : float :=
  fold_left (fun pastEarnings att =>
               (pastEarnings + dailySalary std slab emp att) + fareOf att) l 0.

(** [previousBalance =
      Math.round(pastEarnings - pastDeductions - pastPaymentsTotal)]. *)
Definition previousBalance (settingsData : Settings.t) (emp : Employee.t)
    (attendance : list Attendance.t) (advances : list Advance.t)
    (payments : list Payment.t) (month : string) : float :=
  let pastEarnings :=
    sumPastEarnings (stdHours settingsData) (slabBase settingsData) emp
      (pastAtt emp month attendance) in
  let pastDeductions := sumAdvance (pastAdv emp month advances) in
  let pastPaymentsTotal := sumPaid (pastPay emp month payments) in
  Math_round ((pastEarnings - pastDeductions) - ToNumber pastPaymentsTotal).

(** [currentMonthNet = totalSalary + totalFare - totalAdvance], unrounded. *)
Definition currentMonthNet (settingsData : Settings.t) (emp : Employee.t)
    (attendance : list Attendance.t) (advances : list Advance.t)
    (month : string) : float :=
  let att := empAtt emp month attendance in
  (sumSalary (stdHours settingsData) (slabBase settingsData) emp att + sumFare att)
  - sumAdvance (empAdv emp month advances).

Definition statusOf (remainingDue : float) (totalPaid : JsVal) : Status :=
  if num_le remainingDue 0 then Settled
  else if js_gt totalPaid 0 then Partial else Unpaid.

(** [empPay.length > 0 ? empPay[0].date : null]. *)
Definition firstDate (l : list Payment.t) : option string :=
  match l with
  | p :: _ => Some (Payment.date p)
  | [] => None
  end.

(** [empPay.filter(p => p.screenshot).map(p => p.screenshot)]. *)
Definition hasScreenshot (p : Payment.t) : bool :=
  match Payment.screenshot p with
  | Some u => negb (String.eqb u "")
  | None => false
  end.

Definition screenshotOf (p : Payment.t) : string :=
  str_or (Payment.screenshot p) "".

Definition screenshots (l : list Payment.t) : list string :=
  map screenshotOf (filter hasScreenshot l).

Section Engine.

(** The time value of [new Date(s)], NaN for an invalid date.  Outside the
    ISO format ECMAScript leaves the parsing to the implementation, and a
    date with a time but no offset is read in the local time zone: the function
    belongs to the runtime and is a parameter here. *)
Variable DateParse : string -> float.

(** [(a, b) => new Date(b.date) - new Date(a.date)]. *)
Definition byDateDesc (a b : Payment.t) : float :=
  DateParse (Payment.date b) - DateParse (Payment.date a).

(** The callback of [employees.map]: the statement of one employee. *)
Definition statementOf (settingsData : Settings.t)
    (attendance : list Attendance.t) (advances : list Advance.t)
    (payments : list Payment.t) (month : string) (emp : Employee.t)
    : Statement.t :=
  let stdHours := stdHours settingsData in
  let slabBase := slabBase settingsData in
  let empAtt := empAtt emp month attendance in
  let empAdv := empAdv emp month advances in
  let empPay := empPay emp month payments in
  let totalPaid := sumPaid empPay in
  let empPay := sort byDateDesc empPay in
  let lastPaymentDate := firstDate empPay in
  let paymentProofs := screenshots empPay in
  let totalSalary := sumSalary stdHours slabBase emp empAtt in
  let totalFare := sumFare empAtt in
  let daysWorked := List.length empAtt in
  let totalAdvance := sumAdvance empAdv in
  let previousBalance :=
    previousBalance settingsData emp attendance advances payments month in
  let currentMonthNet := (totalSalary + totalFare) - totalAdvance in
  let netPayable := Math_round (currentMonthNet + previousBalance) in
  let remainingDue := netPayable - ToNumber totalPaid in
  {| Statement.employee := emp;
     Statement.daysWorked := daysWorked;
     Statement.salaryEarned := Math_round totalSalary;
     Statement.fareTotal := totalFare;
     Statement.advancePaid := totalAdvance;
     Statement.previousBalance := previousBalance;
     Statement.currentMonthNet := Math_round currentMonthNet;
     Statement.finalPayable := netPayable;
     Statement.paidTotal := totalPaid;
     Statement.remainingDue := remainingDue;
     Statement.lastPaymentDate := lastPaymentDate;
     Statement.paymentProofs := paymentProofs;
     Statement.status := statusOf remainingDue totalPaid |}.

(** [employees.map(emp => ...)]: the statement list of the response. *)
Definition computePayroll (employees : list Employee.t)
    (attendance : list Attendance.t) (advances : list Advance.t)
    (payments : list Payment.t) (settingsData : Settings.t)
    (month : string) : list Statement.t :=
  map (statementOf settingsData attendance advances payments month) employees.

End Engine.

End Payroll.

(** ** The same computation over arrays in a store

    The four collections are arrays: objects the caller holds by reference.
    [filter] and [map] allocate a new array, [sort] rearranges the array it
    is called on, the other methods only read.  The store is a list of
    arrays, a reference is a position in it. *)

Module Store.

Import JsNumber Payroll.
Local Open Scope float_scope.

Inductive array : Type :=
  | Employees (l : list Employee.t)
  | AttendanceRows (l : list Attendance.t)
  | Advances (l : list Advance.t)
  | Payments (l : list Payment.t)
  | Strings (l : list string).

Definition asEmployees (a : array) : list Employee.t :=
  match a with Employees l => l | _ => [] end.
Definition asAttendance (a : array) : list Attendance.t :=
  match a with AttendanceRows l => l | _ => [] end.
Definition asAdvances (a : array) : list Advance.t :=
  match a with Advances l => l | _ => [] end.
Definition asPayments (a : array) : list Payment.t :=
  match a with Payments l => l | _ => [] end.
Definition asStrings (a : array) : list string :=
  match a with Strings l => l | _ => [] end.

Definition ref : Type := nat.
Definition store : Type := list array.

(** Computations that read and write the store. *)
Definition M (A : Type) : Type := store -> A * store.

Definition ret {A : Type} (x : A) : M A := fun h => (x, h).

Definition bind {A B : Type} (m : M A) (k : A -> M B) : M B :=
  fun h => let (x, h') := m h in k x h'.

Notation "x <- m ;; k" := (bind m (fun x => k))
  (at level 61, m at next level, right associativity).
Notation "m ;;; k" := (bind m (fun _ => k))
  (at level 61, right associativity).

Fixpoint update (r : ref) (a : array) (h : store) : store :=
  match h, r with
  | [], _ => []
  | _ :: h', O => a :: h'
  | b :: h', S r' => b :: update r' a h'
  end.

Definition load (r : ref) : M array := fun h => (nth r h (Strings []), h).
Definition alloc (a : array) : M ref := fun h => (List.length h, h ++ [a]).
Definition write (r : ref) (a : array) : M unit := fun h => (tt, update r a h).

(** The array methods the handler calls. *)
Definition filterAttendance (f : Attendance.t -> bool) (r : ref) : M ref :=
  a <- load r ;; alloc (AttendanceRows (filter f (asAttendance a))).

Definition filterAdvances (f : Advance.t -> bool) (r : ref) : M ref :=
  a <- load r ;; alloc (Advances (filter f (asAdvances a))).

Definition filterPayments (f : Payment.t -> bool) (r : ref) : M ref :=
  a <- load r ;; alloc (Payments (filter f (asPayments a))).

Definition sortPayments (cmp : Payment.t -> Payment.t -> float) (r : ref) : M unit :=
  a <- load r ;; write r (Payments (sort cmp (asPayments a))).

Definition mapScreenshot (r : ref) : M ref :=
  a <- load r ;; alloc (Strings (map screenshotOf (asPayments a))).

Fixpoint mapM {A B : Type} (f : A -> M B) (l : list A) : M (list B) :=
  match l with
  | [] => ret []
  | x :: l' => y <- f x ;; ys <- mapM f l' ;; ret (y :: ys)
  end.

Section Engine.

Variable DateParse : string -> float.

(** The callback of [employees.map], statement by statement. *)
Definition statementM (settingsData : Settings.t)
    (attendance advances payments : ref) (month : string)
    (emp : Employee.t) : M Statement.t :=
  let stdHours := stdHours settingsData in
  let slabBase := slabBase settingsData in
  empAtt <- filterAttendance (isEmpAtt emp month) attendance ;;
  empAdv <- filterAdvances (isEmpAdv emp month) advances ;;
  empPay <- filterPayments (isEmpPay emp month) payments ;;
  paid <- load empPay ;;
  let totalPaid := sumPaid (asPayments paid) in
  sortPayments (byDateDesc DateParse) empPay ;;;
  sorted <- load empPay ;;
  let lastPaymentDate := firstDate (asPayments sorted) in
  withProof <- filterPayments hasScreenshot empPay ;;
  paymentProofs <- mapScreenshot withProof ;;
  days <- load empAtt ;;
  let totalSalary := sumSalary stdHours slabBase emp (asAttendance days) in
  let totalFare := sumFare (asAttendance days) in
  let daysWorked := List.length (asAttendance days) in
  deducted <- load empAdv ;;
  let totalAdvance := sumAdvance (asAdvances deducted) in
  pastAtt <- filterAttendance (isPastAtt emp month) attendance ;;
  pastDays <- load pastAtt ;;
  let pastEarnings := sumPastEarnings stdHours slabBase emp (asAttendance pastDays) in
  pastAdv <- filterAdvances (isPastAdv emp month) advances ;;
  pastDeducted <- load pastAdv ;;
  let pastDeductions := sumAdvance (asAdvances pastDeducted) in
  pastPay <- filterPayments (isPastPay emp month) payments ;;
  pastPaid <- load pastPay ;;
  let pastPaymentsTotal := sumPaid (asPayments pastPaid) in
  let previousBalance :=
    Math_round ((pastEarnings - pastDeductions) - ToNumber pastPaymentsTotal) in
  let currentMonthNet := (totalSalary + totalFare) - totalAdvance in
  let netPayable := Math_round (currentMonthNet + previousBalance) in
  let remainingDue := netPayable - ToNumber totalPaid in
  proofs <- load paymentProofs ;;
  ret {| Statement.employee := emp;
         Statement.daysWorked := daysWorked;
         Statement.salaryEarned := Math_round totalSalary;
         Statement.fareTotal := totalFare;
         Statement.advancePaid := totalAdvance;
         Statement.previousBalance := previousBalance;
         Statement.currentMonthNet := Math_round currentMonthNet;
         Statement.finalPayable := netPayable;
         Statement.paidTotal := totalPaid;
         Statement.remainingDue := remainingDue;
         Statement.lastPaymentDate := lastPaymentDate;
         Statement.paymentProofs := asStrings proofs;
         Statement.status := statusOf remainingDue totalPaid |}.

(** [employees.map(emp => ...)] on the arrays the four references name. *)
Definition payrollM (employees attendance advances payments : ref)
    (settingsData : Settings.t) (month : string) : M (list Statement.t) :=
  emps <- load employees ;;
  mapM (statementM settingsData attendance advances payments month)
       (asEmployees emps).

End Engine.

(** The store holds the three collections at the three references. *)
Definition holds (attendance advances payments : ref)
    (att : list Attendance.t) (adv : list Advance.t) (pay : list Payment.t)
    (h : store) : Prop :=
  nth_error h attendance = Some (AttendanceRows att)
  /\ nth_error h advances = Some (Advances adv)
  /\ nth_error h payments = Some (Payments pay).

End Store.

(** ** The per-day pay of the attendance table (client, [loadAttendanceTable]) *)

Module Client.

Import JsNumber.
Local Open Scope float_scope.

(** [computedPay] of one attendance row.  [emp] is [empMap[att.employeeId]]
    (absent for a deleted employee, whose salary then counts as 0), and
    [globalSettings] is the settings object the client holds. *)
Definition computedPay (globalSettings : Settings.t)
    (emp : option Employee.t) (att : Attendance.t) : float :=
  let defaultSalary :=
    match emp with
    | Some e => Employee.salary e
    | None => JNum 0
    end in
  let workedHours :=
    if ToBoolean (Attendance.workedHours att)
    then Some (parseFloat (Attendance.workedHours att)) else None in
  let salary := parseFloat defaultSalary in
  let standardHours := ToNumber (Settings.standardHours globalSettings) in
  let normalRate := salary / standardHours in
  match workedHours with
  | Some workedHours =>
      if Attendance.sundayMode att then salary
      else if Attendance.slabMode att && PrimFloat.ltb standardHours workedHours then
        let extraHours := workedHours - standardHours in
        let slabRate := salary / ToNumber (Settings.slabHours globalSettings) in
        (normalRate * standardHours) + (slabRate * extraHours)
      else normalRate * workedHours
  | None => 0
  end.

End Client.

(** ** The settings row: [POST /api/settings], [updateSettings], [getSettings] *)

Module SettingsStore.

(** The settings table holds the row with id 1, or nothing.  No constraint
    on the two columns is declared anywhere in the repository. *)
Definition table : Type := option Settings.t.

(** The request body: the columns it carries. *)
Record body : Type := mkBody {
  newStandardHours : option JsVal;
  newSlabHours : option JsVal
}.

Inductive response : Type :=
  | Json (row : Settings.t)
  | Failure (httpStatus : nat).

(** [supabase.from('settings').update(settings).eq('id', 1).select().single()]:
    the columns present in [settings] are overwritten; with no row to return,
    [single()] reports an error, which is thrown. *)
Definition updateSettings (tbl : table) (settings : body) : table * option Settings.t :=
  match tbl with
  | Some row =>
      let row' :=
        Settings.mk
          (match newStandardHours settings with
           | Some v => v
           | None => Settings.standardHours row
           end)
          (match newSlabHours settings with
           | Some v => v
           | None => Settings.slabHours row
           end) in
      (Some row', Some row')
  | None => (None, None)
  end.

(** The handler: [res.json(updated)], or status 500 when the call throws. *)
Definition postSettings (tbl : table) (reqBody : body) : table * response :=
  match updateSettings tbl reqBody with
  | (tbl', Some updated) => (tbl', Json updated)
  | (tbl', None) => (tbl', Failure 500)
  end.

(** [getSettings]: the row, or the defaults when there is none. *)
Definition getSettings (tbl : table) : Settings.t :=
  match tbl with
  | Some row => row
  | None => Settings.defaults
  end.

End SettingsStore.

(** ** Calendar months as the records spell them *)

Module Calendar.

Import JsNumber.
Local Open Scope Z_scope.

(** A well-formed month is [YYYY-MM] with the month between 01 and 12;
    [parse_month] gives its year and month. *)
Definition parse_month (s : string) : option (Z * Z) :=
  match s with
  | String y1 (String y2 (String y3 (String y4
      (String sep (String m1 (String m2 EmptyString)))))) =>
      match digit_of y1, digit_of y2, digit_of y3, digit_of y4,
            digit_of m1, digit_of m2 with
      | Some a, Some b, Some c, Some d, Some e, Some f =>
          let m := 10 * e + f in
          if Ascii.eqb sep "-" && (1 <=? m) && (m <=? 12)
          then Some (1000 * a + 100 * b + 10 * c + d, m) else None
      | _, _, _, _, _, _ => None
      end
  | _ => None
  end.

Definition wf_month (s : string) : bool :=
  match parse_month s with
  | Some _ => true
  | None => false
  end.

(** A well-formed date is [YYYY-MM-DD]: a well-formed month, a dash and a
    two-digit day from 01 on. *)
Definition wf_day (s : string) : bool :=
  match s with
  | String sep (String d1 (String d2 EmptyString)) =>
      match digit_of d1, digit_of d2 with
      | Some a, Some b =>
          Ascii.eqb sep "-" && (1 <=? 10 * a + b) && (10 * a + b <=? 31)
      | _, _ => false
      end
  | _ => false
  end.

Definition wf_date (s : string) : bool :=
  wf_month (substring 0 7 s) && wf_day (drop 7 s).

(** [is_next_month m m']: [m'] is the calendar month that follows [m]. *)
Definition is_next_month (m m' : string) : bool :=
  match parse_month m, parse_month m' with
  | Some (y, k), Some (y', k') =>
      if k =? 12 then (y' =? y + 1) && (k' =? 1)
      else (y' =? y) && (k' =? k + 1)
  | _, _ => false
  end.

(** The rank of a month in the calendar order: [(y, m)] as [100 y + m]. *)
Definition month_key (ym : Z * Z) : Z := 100 * fst ym + snd ym.

End Calendar.

(** ** A date reader for the examples

    The time value of a date-only ISO string [YYYY-MM-DD] (midnight UTC, in
    milliseconds since the epoch), NaN for every other string.  It instantiates
    [DateParse] where a statement is evaluated on concrete rows. *)

Module IsoDate.

Import JsNumber.
Local Open Scope Z_scope.

Definition days_from_civil (y m d : Z) : Z :=
  let y' := if m <=? 2 then y - 1 else y in
  let era := y' / 400 in
  let yoe := y' - era * 400 in
  let doy := (153 * (if 2 <? m then m - 3 else m + 9) + 2) / 5 + d - 1 in
  let doe := yoe * 365 + yoe / 4 - yoe / 100 + doy in
  era * 146097 + doe - 719468.

Definition digits (n : nat) (s : string) : option Z :=
  let '(v, k, rest) := scan_digits s 0 0 in
  if (k =? Z.of_nat n) && String.eqb rest "" then Some v else None.

Definition timeValue (s : string) : float :=
  match digits 4 (substring 0 4 s), digits 2 (substring 5 2 s), digits 2 (substring 8 2 s) with
  | Some y, Some m, Some d =>
      if (String.length s =? 10)%nat && String.eqb (substring 4 1 s) "-"
         && String.eqb (substring 7 1 s) "-"
         && (1 <=? m) && (m <=? 12) && (1 <=? d) && (d <=? 31)
      then let t := days_from_civil y m d * 86400000 in
           round_decimal (t <? 0) (Z.abs t) 0
      else nan
  | _, _, _ => nan
  end.

End IsoDate.

(** * More of the code: helpers, handlers and client computations *)

(** ** String methods *)

Module JsString.

Local Open Scope string_scope.

(** [s.includes(sub)]. *)
Fixpoint includes (sub s : string) : bool :=
  prefix sub s
  || match s with
     | String _ r => includes sub r
     | EmptyString => false
     end.

(** [s.split(sep)] for a separator of one character. *)
Fixpoint split (sep : ascii) (s : string) : list string :=
  match s with
  | EmptyString => [EmptyString]
  | String c r =>
      if Ascii.eqb c sep then EmptyString :: split sep r
      else
        match split sep r with
        | piece :: pieces => String c piece :: pieces
        | [] => [String c EmptyString]
        end
  end.

(** [s.split(sep).pop()] for a non-empty separator: the text after the last
    of the occurrences of [sep] met from the left, an occurrence being stepped
    over once met.  [skip] characters are still to step over, [piece] is the
    text after the latest occurrence. *)
Fixpoint lastPiece (sep : string) (skip : nat) (piece s : string) : string :=
  match s with
  | EmptyString => piece
  | String _ r =>
      match skip with
      | S k => lastPiece sep k piece r
      | O =>
          if prefix sep s
          then lastPiece sep (String.length sep - 1)
                         (JsNumber.drop (String.length sep) s) r
          else lastPiece sep 0 piece r
      end
  end.

Definition popSplit (sep s : string) : string := lastPiece sep 0 s s.

(** White space of [trim]: the white space and line terminators that
    [parseFloat] and [Number] skip as well. *)
Definition is_space (c : ascii) : bool := JsNumber.is_ws c.

Fixpoint trimStart (s : string) : string :=
  match s with
  | String c r => if is_space c then trimStart r else s
  | EmptyString => s
  end.

Fixpoint trimEnd (s : string) : string :=
  match s with
  | EmptyString => EmptyString
  | String c r =>
      match trimEnd r with
      | EmptyString => if is_space c then EmptyString else String c EmptyString
      | r' => String c r'
      end
  end.

Definition trim (s : string) : string := trimEnd (trimStart s).

(** [toLowerCase] on code units below 256: A-Z and the accented capitals
    192-222 (but the multiplication sign, 215) move up by 32. *)
Definition lower (c : ascii) : ascii :=
  let n := JsNumber.code c in
  if (((65 <=? n) && (n <=? 90))
      || ((192 <=? n) && (n <=? 222) && negb (n =? 215)))%Z
  then ascii_of_N (N_of_ascii c + 32) else c.

Fixpoint toLowerCase (s : string) : string :=
  match s with
  | String c r => String (lower c) (toLowerCase r)
  | EmptyString => EmptyString
  end.

(** [s.padStart(n, "0")]. *)
Definition padStart0 (n : nat) (s : string) : string :=
  JsNumber.zeros (n - String.length s) ++ s.

(** [a === b] on column values. *)
Definition strict_eq (a b : JsVal) : bool :=
  match a, b with
  | JNull, JNull => true
  | JNum x, JNum y => PrimFloat.eqb x y
  | JStr s, JStr t => String.eqb s t
  | _, _ => false
  end.

End JsString.

(** ** More number methods: [toFixed], [parseInt], the remainder *)

Module JsFormat.

Import JsNumber JsString.
Local Open Scope string_scope.

(** [x.toFixed(f)]: the decimal with [f] fraction digits nearest to [x], the
    larger one on a tie; the sign of a negative [x] is kept, and from 1e21 on
    the result is that of [toString]. *)
Definition toFixed (f : nat) (x : float) : string :=
  match Prim2SF x with
  | S754_nan => "NaN"
  | S754_infinity s => if s then "-Infinity" else "Infinity"
  | S754_zero _ => if (f =? 0)%nat then "0" else "0." ++ zeros f
  | S754_finite s m e =>
      if PrimFloat.leb 1e21 (PrimFloat.abs x) then NumberToString x
      else
        let scale := (10 ^ Z.of_nat f)%Z in
        let '(num, den) :=
          if (0 <=? e)%Z then (Zpos m * 2 ^ e * scale, 1)%Z
          else (Zpos m * scale, 2 ^ (- e))%Z in
        let n := ((2 * num + den) / (2 * den))%Z in
        let ds := padStart0 (f + 1) (digits_of_Z n) in
        let k := (String.length ds - f)%nat in
        (if s then "-" else "")
        ++ substring 0 k ds
        ++ (if (f =? 0)%nat then "" else "." ++ drop k ds)
  end.

Fixpoint scan_int (radix : Z) (s : string) (acc count : Z) : Z * Z :=
  match s with
  | String c r =>
      match radix_digit radix c with
      | Some d => scan_int radix r (radix * acc + d)%Z (count + 1)%Z
      | None => (acc, count)
      end
  | EmptyString => (acc, count)
  end.

(** [parseInt(s)] without a radix: white space, a sign, then hexadecimal
    digits after [0x] or decimal digits otherwise, up to the first character
    that is not a digit; NaN when there is none. *)
Definition parseInt (s : string) : float :=
  let '(neg, s1) := scan_sign (skip_ws s) in
  let '(radix, s2) :=
    match s1 with
    | String "0" (String c r) =>
        if (Ascii.eqb c "x" || Ascii.eqb c "X")%bool then (16%Z, r) else (10%Z, s1)
    | _ => (10%Z, s1)
    end in
  let '(v, count) := scan_int radix s2 0 0 in
  if (count =? 0)%Z then nan else round_decimal neg v 0.

(** [n % d]: the remainder of the truncating division, with the sign of
    [n]; it is exact. *)
Definition rem (n d : float) : float :=
  match Prim2SF n, Prim2SF d with
  | S754_nan, _ | _, S754_nan => nan
  | S754_infinity _, _ => nan
  | _, S754_zero _ => nan
  | _, S754_infinity _ => n
  | S754_zero _, _ => n
  | S754_finite sn mn en, S754_finite _ md ed =>
      let e := Z.min en ed in
      let N := (Zpos mn * 2 ^ (en - e))%Z in
      let D := (Zpos md * 2 ^ (ed - e))%Z in
      SF2Prim (binary_normalize prec emax (cond_Zopp sn (N mod D)) e sn)
  end.

End JsFormat.

(** ** The retry helper of the record store client ([retry]) *)

Module Retry.

Import JsString.
Local Open Scope string_scope.

(** What one call of the operation does: it resolves with a value or
    rejects with an error carrying a message. *)
Inductive attempt (A : Type) : Type :=
  | Resolved (value : A)
  | Rejected (message : string).
Arguments Resolved {A} value.
Arguments Rejected {A} message.

(** How [retry] ends: it returns a value or throws; what it throws is the
    error of a call, or [undefined] when no call was made. *)
Inductive outcome (A : Type) : Type :=
  | Returned (value : A)
  | Thrown (error : option string).
Arguments Returned {A} value.
Arguments Thrown {A} error.

(** The run: how it ends, how many times the operation was called, and the
    delays waited for, in order (milliseconds). *)
Record run (A : Type) : Type := mkRun {
  result : outcome A;
  calls : nat;
  waits : list nat
}.
Arguments mkRun {A} result calls waits.
Arguments result {A} r.
Arguments calls {A} r.
Arguments waits {A} r.

Definition isNetworkError (message : string) : bool :=
  includes "fetch failed" message || includes "network" message
  || includes "timeout" message || includes "ECONNRESET" message.

Section Loop.

Context {A : Type}.

(** The operation, as the result of its calls in order: [operation i] is what
    the call number [i] (from 0) does. *)
Variable operation : nat -> attempt A.
Variables maxRetries delay : nat.

(** The [for] loop from [i] on, with [remaining] iterations left to try;
    [waited] lists the delays so far, latest first. *)
Fixpoint loop (remaining i : nat) (lastError : option string) (waited : list nat)
  : run A :=
  match remaining with
  | O => mkRun (Thrown lastError) i (rev waited)
  | S remaining' =>
      match operation i with
      | Resolved value => mkRun (Returned value) (S i) (rev waited)
      | Rejected message =>
          if isNetworkError message then
            let waited' :=
              if (i <? maxRetries - 1)%nat then (delay * (i + 1))%nat :: waited
              else waited in
            loop remaining' (S i) (Some message) waited'
          else mkRun (Thrown (Some message)) (S i) (rev waited)
      end
  end.

Definition retry : run A := loop maxRetries 0 None [].

End Loop.

End Retry.

(** ** [POST /api/login] and [POST /api/employees] *)

Module Login.

Import JsString.
Local Open Scope string_scope.

(** The columns of an employee row the two handlers deal with. *)
Record account : Type := mkAccount {
  id : string;
  name : option string;
  customId : JsVal;
  password : JsVal
}.

(** The request body of a login.  An absent user name counts like [null];
    an absent password is [None]. *)
Record credentials : Type := mkCredentials {
  username : JsVal;
  empName : JsVal;
  givenPassword : option JsVal
}.

Inductive response : Type :=
  | Admin
  | Employee (name : option string) (id : string)
  | InvalidCredentials.

Section Handler.

(** The administrator's name and password, from the environment. *)
Variables ADMIN_USERNAME ADMIN_PASSWORD : string.

(** [(username || empName || '').toString().trim()]. *)
Definition loginUser (c : credentials) : string :=
  trim (ToString (js_or (js_or (username c) (empName c)) (JStr ""))).

Definition isAdmin (c : credentials) : bool :=
  String.eqb (toLowerCase (loginUser c)) (toLowerCase ADMIN_USERNAME)
  && match givenPassword c with
     | Some (JStr p) => String.eqb p ADMIN_PASSWORD
     | _ => false
     end.

(** The callback of [employees.find]. *)
Definition matches (c : credentials) (e : account) : bool :=
  let nameMatch :=
    match name e with
    | Some n =>
        negb (String.eqb n "")
        && String.eqb (toLowerCase n) (toLowerCase (loginUser c))
    | None => false
    end in
  let idMatch := String.eqb (id e) (loginUser c) in
  let customIdMatch := String.eqb (ToString (customId e)) (loginUser c) in
  (nameMatch || idMatch || customIdMatch)
  && match givenPassword c with
     | Some p => strict_eq (password e) p
     | None => false
     end.

(** The handler.  [employees] is what [getAllEmployees] gives, [None] when
    it throws (the error is logged and the request ends as invalid). *)
Definition login (employees : option (list account)) (c : credentials) : response :=
  if isAdmin c then Admin
  else
    match employees with
    | Some rows =>
        match find (matches c) rows with
        | Some emp => Employee (name emp) (id emp)
        | None => InvalidCredentials
        end
    | None => InvalidCredentials
    end.

End Handler.

(** The row [POST /api/employees] creates from the fields of its body, with
    the identifier taken from the clock. *)
Definition newAccount (now : string) (bodyName : option string)
    (bodyCustomId bodyPassword : JsVal) : account :=
  {| id := now;
     name := bodyName;
     customId := js_or bodyCustomId (JStr "");
     password := js_or bodyPassword (JStr "123456") |}.

End Login.

(** ** [POST /api/attendance] *)

Module AttendanceWrite.

Local Open Scope string_scope.

(** The fields of the request body the handler reads ([None]: absent). *)
Record request : Type := mkRequest {
  employeeId : option string;
  date : option string;
  workedHours : JsVal;
  slabMode : bool;
  fare : JsVal
}.

(** The object handed to [createAttendance]. *)
Record newRow : Type := mkRow {
  id : string;
  rowDate : option string;
  rowEmployeeId : option string;
  rowWorkedHours : JsVal;
  rowSlabMode : bool;
  rowFare : JsVal
}.

Inductive outcome : Type :=
  | Duplicate
  | Insert (att : newRow).

(** [checkDuplicateAttendance]: is there a row of this employee on this
    date. *)
Definition checkDuplicateAttendance (table : list Attendance.t)
    (employeeId date : string) : bool :=
  existsb (fun r => String.eqb (Attendance.employeeId r) employeeId
                    && String.eqb (Attendance.date r) date) table.

Definition given (field : option string) : bool :=
  match field with
  | Some s => negb (String.eqb s "")
  | None => false
  end.

(** The handler up to its call of [createAttendance]: [table] is the
    attendance table as the duplicate check reads it.  Status 400 for a
    duplicate, else the object to insert; [now] is [Date.now().toString()]. *)
Definition postAttendance (table : list Attendance.t) (body : request)
    (now : string) : outcome :=
  let att :=
    {| id := now;
       rowDate := date body;
       rowEmployeeId := employeeId body;
       rowWorkedHours := workedHours body;
       rowSlabMode := slabMode body || false;
       rowFare := js_or (fare body) (JNum 0) |} in
  if given (employeeId body) && given (date body) then
    if checkDuplicateAttendance table (str_or (employeeId body) "")
                                (str_or (date body) "")
    then Duplicate else Insert att
  else Insert att.



Inductive response : Type :=
  | Status400
  | Created (row : Attendance.t).


End AttendanceWrite.

(** ** [GET /api/uploads] *)

Module Uploads.

Local Open Scope string_scope.

(** The columns of an advance or payment row the handler reads. *)
Record source : Type := mkSource {
  id : string;
  employeeId : string;
  date : string;
  amount : JsVal;
  screenshot : option string
}.

Inductive kind : Type := advance | payment.

Record item : Type := mkItem {
  itemId : string;
  type : kind;
  itemEmployeeId : string;
  itemDate : string;
  itemAmount : JsVal;
  itemScreenshot : string
}.

Definition hasScreenshot (r : source) : bool :=
  match screenshot r with
  | Some u => negb (String.eqb u "")
  | None => false
  end.

Definition toItem (k : kind) (r : source) : item :=
  {| itemId := id r;
     type := k;
     itemEmployeeId := employeeId r;
     itemDate := date r;
     itemAmount := amount r;
     itemScreenshot := str_or (screenshot r) "" |}.

(** The [forEach] that pushes the rows with a screenshot. *)
Definition pushAll (k : kind) (rows : list source) (uploadList : list item)
  : list item :=
  fold_left (fun l r => if hasScreenshot r then (l ++ [toItem k r])%list else l)
            rows uploadList.

Section Handler.

Variable DateParse : string -> float.

(** [(a, b) => new Date(b.date) - new Date(a.date)]. *)
Definition newestFirst (a b : item) : float :=
  PrimFloat.sub (DateParse (itemDate b)) (DateParse (itemDate a)).

Definition uploadList (advances payments : list source) : list item :=
  sort newestFirst (pushAll payment payments (pushAll advance advances [])).

End Handler.

End Uploads.

(** ** Storage usage and file names ([getStorageUsage], [deleteFile]) *)

Module Storage.

Import JsString.
Local Open Scope string_scope.

Section Usage.

Context {file : Type}.

(** One call of [supabase.storage.from('uploads').list('', {limit, offset})]:
    the page of the listing that starts at [offset]. *)
Variable listPage : nat -> nat -> list file.

(** The [while (hasMore)] loop, [fuel] bounding its iterations: the files
    collected and the number of pages asked for. *)
Fixpoint collect (fuel offset : nat) (allFiles : list file) (pages : nat)
  : option (list file * nat) :=
  match fuel with
  | O => None
  | S fuel' =>
      let limit := 100%nat in
      let data := listPage limit offset in
      if (0 <? List.length data)%nat then
        let allFiles := (allFiles ++ data)%list in
        if (List.length data <? limit)%nat then Some (allFiles, S pages)
        else collect fuel' (offset + limit)%nat allFiles (S pages)
      else Some (allFiles, S pages)
  end.

End Usage.

(** The name [deleteFile] removes from the bucket. *)
Definition fileNameOf (pathOrUrl : string) : string :=
  if includes "/uploads/" pathOrUrl then popSplit "/uploads/" pathOrUrl
  else pathOrUrl.

End Storage.

(** ** Worked hours from the two times (client) *)

Module Hours.

Import JsFormat.
Local Open Scope float_scope.

(** [calculatePreview]: [start] and [end] are the time values of
    [new Date(`1970-01-01T${timeIn}Z`)] and of the same for [timeOut]. *)
Definition previewHours (start end_ : float) : float :=
  let diffMs := end_ - start in
  let diffMs := if PrimFloat.ltb diffMs 0 then diffMs + 24 * 60 * 60 * 1000 else diffMs in
  diffMs / (1000 * 60 * 60).

(** What the attendance form sends as [workedHours]. *)
Definition previewStored (start end_ : float) : string :=
  toFixed 2 (previewHours start end_).

(** [markAttendance]: [t1] and [t2] are the time values of
    [new Date(`2000-01-01T${timeIn}`)] and of the same for [timeOut]. *)
Definition markHours (t1 t2 : float) : float :=
  let diff := (t2 - t1) / 1000 / 60 / 60 in
  if PrimFloat.ltb diff 0 then diff + 24 else diff.

Definition markStored (t1 t2 : float) : string :=
  toFixed 2 (markHours t1 t2).

End Hours.

(** ** The dashboard, the month pickers and the payroll cards (client) *)

Module Dashboard.

Import JsNumber JsString Payroll.
Local Open Scope float_scope.

(** The inner loop of [loadDashboard]: what one employee earned in the
    month.  A row whose hours are not a number is left ([return]). *)
Definition empEarned (globalSettings : Settings.t) (emp : Employee.t)
    (currentMonth : string) (attendanceData : list Attendance.t) : float :=
  let empAtt := filter (isEmpAtt emp currentMonth) attendanceData in
  fold_left
    (fun empEarned att =>
       let wh := parseFloat (Attendance.workedHours att) in
       if is_nan wh then empEarned
       else
         let sal := parseFloat (Employee.salary emp) in
         let standardHours := ToNumber (Settings.standardHours globalSettings) in
         let hourly := sal / standardHours in
         let empEarned :=
           if Attendance.slabMode att && PrimFloat.ltb standardHours wh then
             let slabRate := sal / ToNumber (Settings.slabHours globalSettings) in
             empEarned + ((hourly * standardHours) + (slabRate * (wh - standardHours)))
           else empEarned + hourly * wh in
         empEarned + num_or (parseFloat (Attendance.fare att)) 0)
    empAtt 0.

(** The outer loop: the total payroll of the month on the dashboard. *)
Definition totalPayroll (globalSettings : Settings.t)
    (employeesData : list Employee.t) (currentMonth : string)
    (attendanceData : list Attendance.t) : float :=
  fold_left
    (fun totalPayroll emp =>
       totalPayroll + empEarned globalSettings emp currentMonth attendanceData)
    employeesData 0.

(** The month a picker starts with:
    [`${now.getFullYear()}-${String(now.getMonth() + 1).padStart(2, '0')}`]. *)
Definition currentMonth (fullYear month : float) : string :=
  (NumberToString fullYear ++ "-" ++ padStart0 2 (NumberToString (month + 1)))%string.

(** The last payment date on a payroll card:
    [p.lastPaymentDate.split('-').reverse().join('/')]. *)
Definition lastDate (lastPaymentDate : string) : string :=
  String.concat "/" (rev (split "-" lastPaymentDate)).

End Dashboard.

(** ** Times on the twelve-hour clock ([formatTimeTo12h]) *)

Module TimeFormat.

Import JsNumber JsString JsFormat.
Local Open Scope string_scope.

(** [formatTimeTo12h(timeStr)]; [None] is a missing time.  A piece the
    split does not give prints as [undefined]. *)
Definition formatTimeTo12h (timeStr : option string) : string :=
  match timeStr with
  | None => "-"
  | Some "" => "-"
  | Some timeStr =>
      let pieces := split ":" timeStr in
      let hours := nth 0 pieces "undefined" in
      let minutes := nth 1 pieces "undefined" in
      let h := parseInt hours in
      let m := minutes in
      let ampm := if PrimFloat.leb 12 h then "PM" else "AM" in
      let h := rem h 12 in
      let h := if truthy_number h then h else 12%float in
      padStart0 2 (NumberToString h) ++ ":" ++ m ++ " " ++ ampm
  end.

End TimeFormat.

(** * The vocabulary of the specification and the rows of the examples *)

Import JsNumber Payroll.

Local Open Scope string_scope.
Local Open Scope float_scope.

(** ** Rows used by the examples *)

Module Examples.

Definition worker (salary : float) : Employee.t :=
  Employee.mk "e1" "Asha" (JNum salary).

Definition other : Employee.t := Employee.mk "e2" "Bina" (JNum 700).

Definition day (date : string) (hours : JsVal) (slab sunday : bool) : Attendance.t :=
  Attendance.mk "e1" date hours slab sunday (JNum 0).

(** Sunday work of two hours, entered with the slab flag set as well. *)
Definition sunday : Attendance.t := day "2024-01-07" (JNum 2) true true.

(** Ten hours under the slab rule. *)
Definition longDay : Attendance.t := day "2024-01-08" (JNum 10) true false.

(** An advance handed over in January and deducted in March. *)
Definition marchAdvance : Advance.t :=
  Advance.mk "e1" (JNum 500) (Some "2024-01-15") (Some "2024-03").

End Examples.

(** Rows with malformed numeric fields: one good day for each of two
    employees, a day of the first one whose hours are not a number, an
    advance and a payment whose amounts are not numbers. *)
Module Malformed.

(** One good day for each of two employees, and a day of the first one whose
    hours are not a number. *)
Definition goodDay : Attendance.t := Examples.day "2024-01-08" (JNum 8.5) false false.
Definition badDay : Attendance.t := Examples.day "2024-01-09" (JStr "abc") false false.
Definition otherDay : Attendance.t :=
  Attendance.mk "e2" "2024-01-08" (JNum 8.5) false false (JStr "n/a").

Definition badAdvance : Advance.t :=
  Advance.mk "e1" (JStr "abc") (Some "2024-01-20") None.
Definition badPayment : Payment.t :=
  Payment.mk "e1" "2024-01" (JStr "abc") "2024-02-01" None.

Definition statements (emps : list Employee.t) (attendance : list Attendance.t)
    (advances : list Advance.t) (payments : list Payment.t) : list Statement.t :=
  computePayroll IsoDate.timeValue emps attendance advances payments
                 Settings.defaults "2024-01".

End Malformed.

(** What the specification says of one statement: the final payable is the
    rounded sum of the unrounded month net and the previous balance, the
    remaining due is the final payable less the amount paid, and the status
    is decided by the remaining due first and the amount paid second. *)
Definition status_rule (settingsData : Settings.t)
    (attendance : list Attendance.t) (advances : list Advance.t)
    (month : string) (st : Statement.t) : Prop :=
  let remainingDue := Statement.remainingDue st in
  let paidTotal := Statement.paidTotal st in
  Statement.finalPayable st =
    Math_round (currentMonthNet settingsData (Statement.employee st)
                                attendance advances month
                + Statement.previousBalance st)
  /\ remainingDue = Statement.finalPayable st - ToNumber paidTotal
  /\ (Statement.status st = Settled <-> num_le remainingDue 0 = true)
  /\ (Statement.status st = Partial <->
        num_le remainingDue 0 = false /\ js_gt paidTotal 0 = true)
  /\ (Statement.status st = Unpaid <->
        num_le remainingDue 0 = false /\ js_gt paidTotal 0 = false).

(** The two parts the specification splits a slab day into. *)
Definition basePay (standardHours : float) (emp : Employee.t) : float :=
  (parseFloat (Employee.salary emp) / standardHours) * standardHours.

Definition otPay (standardHours slabHours : float)
    (emp : Employee.t) (att : Attendance.t) : float :=
  (parseFloat (Employee.salary emp) / slabHours)
  * (parseFloat (Attendance.workedHours att) - standardHours).

(** The rows of one employee. *)
Definition ownAttendance (emp : Employee.t) (a : Attendance.t) : bool :=
  String.eqb (Attendance.employeeId a) (Employee.id emp).

(** A setting that is the number zero (0 or -0). *)
Definition is_zero (v : JsVal) : bool :=
  match v with
  | JNum x => PrimFloat.eqb x 0
  | _ => false
  end.

(** A write the boundary turns down: an error response. *)
Definition rejected (r : SettingsStore.table * SettingsStore.response) : Prop :=
  match snd r with
  | SettingsStore.Failure _ => True
  | SettingsStore.Json _ => False
  end.

(** A write of zero hours, and the settings the payroll reads after it. *)
Module ZeroHours.

Definition zeroBody : SettingsStore.body :=
  SettingsStore.mkBody (Some (JNum 0)) (Some (JNum 0)).

(** The settings the payroll reads after the write of [zeroBody]. *)
Definition stored : Settings.t :=
  SettingsStore.getSettings
    (fst (SettingsStore.postSettings (Some Settings.defaults) zeroBody)).

End ZeroHours.

(** Rows around an idle January: work in December and in February, an
    advance of December, a payment for December. *)
Module Idle.

Definition attendance : list Attendance.t :=
  [ Examples.day "2023-12-30" (JNum 8.5) false false;
    Examples.day "2024-02-02" (JNum 8.5) false false;
    Attendance.mk "e2" "2024-01-10" (JNum 8.5) false false JNull ].

Definition advances : list Advance.t :=
  [ Advance.mk "e1" (JNum 200) (Some "2023-12-10") None;
    Examples.marchAdvance ].

Definition payments : list Payment.t :=
  [ Payment.mk "e1" "2023-12" (JNum 300) "2024-01-05" None;
    Payment.mk "e1" "2024-02" (JNum 100) "2024-03-01" (Some "proof-1");
    Payment.mk "e1" "2024-02" (JNum 50) "2024-03-05" (Some "proof-2") ].

End Idle.

(** A store with the four collections of the idle-January rows. *)
Module Stored.

Definition store : Store.store :=
  [ Store.Employees [Examples.worker 850; Examples.other];
    Store.AttendanceRows Idle.attendance;
    Store.Advances Idle.advances;
    Store.Payments Idle.payments ].

End Stored.

(** ** The advance totals in the words of the specification

    The advance total of a month adds the amounts of the advances of the
    employee whose effective deduction month is that month; the past
    deductions add those whose effective month is before it.  Both go through
    the advances in the order of the table, from 0. *)

Definition deductedIn (emp : Employee.t) (month : string) (a : Advance.t) : bool :=
  String.eqb (Advance.employeeId a) (Employee.id emp)
  && String.eqb (effectiveMonth a) month.

Definition deductedBefore (emp : Employee.t) (month : string) (a : Advance.t) : bool :=
  String.eqb (Advance.employeeId a) (Employee.id emp)
  && String.ltb (effectiveMonth a) month.

Fixpoint totalFrom (counts : Advance.t -> bool) (advances : list Advance.t)
    (total : float) : float :=
  match advances with
  | [] => total
  | a :: rest => totalFrom counts rest (if counts a then total + amountOf a else total)
  end.

Definition advanceTotal (emp : Employee.t) (month : string)
    (advances : list Advance.t) : float :=
  totalFrom (deductedIn emp month) advances 0.

Definition pastDeductions (emp : Employee.t) (month : string)
    (advances : list Advance.t) : float :=
  totalFrom (deductedBefore emp month) advances 0.

(** The advance of January deducted in March among others: an advance of
    another employee for March, and an advance handed over in March itself. *)
Module Deductions.

Definition advances : list Advance.t :=
  [ Advance.mk "e2" (JNum 900) (Some "2024-03-01") (Some "2024-03");
    Examples.marchAdvance;
    Advance.mk "e1" (JNum 200) (Some "2024-03-20") None ].

End Deductions.

(** * Vocabulary and rows for the further properties *)

(** An attendance row with its Sunday flag replaced. *)
Definition withSunday (f : Attendance.t -> bool) (a : Attendance.t) : Attendance.t :=
  Attendance.mk (Attendance.employeeId a) (Attendance.date a)
                (Attendance.workedHours a) (Attendance.slabMode a) (f a)
                (Attendance.fare a).

(** The advances and the payments of one employee. *)
Definition ownAdvance (emp : Employee.t) (a : Advance.t) : bool :=
  String.eqb (Advance.employeeId a) (Employee.id emp).

Definition ownPayment (emp : Employee.t) (p : Payment.t) : bool :=
  String.eqb (Payment.employeeId p) (Employee.id emp).

(** A value that is a string. *)
Definition isText (v : JsVal) : bool :=
  match v with
  | JStr _ => true
  | _ => false
  end.

(** A row whose hours parse to a number. *)
Definition numericHours (att : Attendance.t) : bool :=
  negb (is_nan (parseFloat (Attendance.workedHours att))).

(** The delays [retry] waits for before the call number [k]. *)
Definition delaysBefore (delay k : nat) : list nat :=
  map (fun j => (delay * (j + 1))%nat) (seq 0 k).

(** The calls before number [k] all fail with a network error. *)
Definition networkFailures {A : Type} (operation : nat -> Retry.attempt A)
    (k : nat) : Prop :=
  forall j, (j < k)%nat ->
    exists message,
      operation j = Retry.Rejected message
      /\ Retry.isNetworkError message = true.

(** The error [retry] holds when call [k] starts: the one of the call
    before. *)
Definition errorBefore {A : Type} (operation : nat -> Retry.attempt A)
    (k : nat) : option string :=
  match k with
  | O => None
  | S j =>
      match operation j with
      | Retry.Rejected message => Some message
      | Retry.Resolved _ => None
      end
  end.

(** A login without any user name. *)
Definition anonymous (p : JsVal) : Login.credentials :=
  Login.mkCredentials JNull JNull (Some p).


(** The float of a small integer. *)
Definition ofZ (z : Z) : float := round_decimal (z <? 0)%Z (Z.abs z) 0.

(** Minutes as hundredths of an hour, rounded to the nearest, and their
    display with two decimals. *)
Definition centiHours (minutes : Z) : Z := ((200 * minutes + 60) / 120)%Z.

Definition showCenti (n : Z) : string :=
  digits_of_Z (n / 100) ++ "." ++ JsString.padStart0 2 (digits_of_Z (n mod 100)).

(** The minutes from the first time to the second, the second one being on
    the next day when it is earlier. *)
Definition elapsed (d : Z) : Z := (d mod 1440)%Z.

(** Both hour computations read the two time values through their
    difference only. *)
Definition previewOfDiff (diffMs : float) : float :=
  (if PrimFloat.ltb diffMs 0 then diffMs + 24 * 60 * 60 * 1000 else diffMs)
  / (1000 * 60 * 60).

Definition markOfDiff (diffMs : float) : float :=
  let diff := diffMs / 1000 / 60 / 60 in
  if PrimFloat.ltb diff 0 then diff + 24 else diff.

(** What is checked for each difference of whole minutes within a day. *)
Definition hours_ok (d : Z) : bool :=
  let diff := ofZ (d * 60000) in
  let h := previewOfDiff diff in
  PrimFloat.eqb h (ofZ (elapsed d * 60000) / 3600000)
  && PrimFloat.leb 0 h && PrimFloat.ltb h 24
  && String.eqb (JsFormat.toFixed 2 h) (showCenti (centiHours (elapsed d)))
  && String.eqb (JsFormat.toFixed 2 (markOfDiff diff)) (JsFormat.toFixed 2 h).

Definition minuteDiffs : list Z :=
  map (fun n => (Z.of_nat n - 1439)%Z) (seq 0 (Z.to_nat 2879)).

(** The year and the month of a picker, read back digit by digit. *)
Definition year_ok (y : Z) : bool :=
  match NumberToString (ofZ y) with
  | String a (String b (String c (String d EmptyString))) =>
      match digit_of a, digit_of b, digit_of c, digit_of d with
      | Some a, Some b, Some c, Some d => (1000 * a + 100 * b + 10 * c + d =? y)%Z
      | _, _, _, _ => false
      end
  | _ => false
  end.

Definition month_ok (m : Z) : bool :=
  match JsString.padStart0 2 (NumberToString (ofZ m + 1)) with
  | String e (String f EmptyString) =>
      match digit_of e, digit_of f with
      | Some e, Some f => (10 * e + f =? m + 1)%Z
      | _, _ => false
      end
  | _ => false
  end.

Definition years : list Z :=
  map (fun n => (Z.of_nat n + 1000)%Z) (seq 0 (Z.to_nat 9000)).

Definition monthIndexes : list Z := map Z.of_nat (seq 0 12).

(** An hour or a minute count as two digits, and the hour of the
    twelve-hour clock. *)
Definition twoDigits (n : nat) : string :=
  JsString.padStart0 2 (digits_of_Z (Z.of_nat n)).

Definition clock12 (h : nat) : nat :=
  if (h mod 12 =? 0)%nat then 12%nat else (h mod 12)%nat.

(** The two parts [formatTimeTo12h] computes from the hour text. *)
Definition hourPart (hours : string) : string :=
  let h := JsFormat.rem (JsFormat.parseInt hours) 12 in
  JsString.padStart0 2 (NumberToString (if truthy_number h then h else 12)).

Definition halfOfDay (hours : string) : string :=
  if PrimFloat.leb 12 (JsFormat.parseInt hours) then "PM" else "AM".

(** Rows and runs for the examples. *)
Module Samples.

(** An operation that fails twice on the network and then answers 7; one
    that meets a constraint violation on its second call; one that never
    gets through. *)
Definition flaky (i : nat) : Retry.attempt nat :=
  if (i <? 2)%nat then Retry.Rejected "TypeError: fetch failed"
  else Retry.Resolved 7%nat.

Definition refused (i : nat) : Retry.attempt nat :=
  if (i <? 1)%nat then Retry.Rejected "network timeout"
  else Retry.Rejected "duplicate key value".

Definition offline (i : nat) : Retry.attempt nat :=
  Retry.Rejected "ECONNRESET".

(** An orphaned attendance row, advance and payment. *)
Definition orphanDay : Attendance.t :=
  Attendance.mk "gone" "2024-01-08" (JStr "abc") true true (JNum 50).

Definition orphanAdvance : Advance.t :=
  Advance.mk "gone" (JNum 900) (Some "2024-01-02") None.

Definition orphanPayment : Payment.t :=
  Payment.mk "gone" "2024-01" (JStr "x") "2024-01-31" (Some "proof-0").

(** An attendance table with one row, and two requests. *)
Definition table : list Attendance.t := [Examples.longDay].

Definition sameDay : AttendanceWrite.request :=
  AttendanceWrite.mkRequest (Some "e1") (Some "2024-01-08") (JStr "8.50") false (JStr "").


Definition noDate : AttendanceWrite.request :=
  AttendanceWrite.mkRequest (Some "e1") None (JStr "8.50") false (JStr "").

(** A bucket of 250 files, named by their position, and its listing. *)
Definition bucket : list nat := seq 0 250.

Definition listPage (limit offset : nat) : list nat :=
  firstn limit (skipn offset bucket).

End Samples.

(** * Properties *)

(** ** The number model on known values *)

Example Math_round_ties_up :
  map Math_round [2.5; -2.5; 0.5; -0.5; -0.3; 1062.5; -7.6; 0.49999999999999994]
  = [3; -2; 1; -0; -0; 1063; -8; 0].
Proof. vm_compute. reflexivity. Qed.

Example NumberToString_shortest :
  map NumberToString
      [0.1; 0.1 + 0.2; 1 / 3; 1e21; 1e-7; 0.000001; 212.5; -8.5; -0; 5e-324]
  = ["0.1"; "0.30000000000000004"; "0.3333333333333333"; "1e+21"; "1e-7";
     "0.000001"; "212.5"; "-8.5"; "0"; "5e-324"].
Proof. vm_compute. reflexivity. Qed.

Example parseFloat_prefix :
  map parseFloat
      [JStr "8.50"; JStr " 12abc"; JStr "abc"; JStr ""; JStr ".5"; JStr "1e3";
       JStr "0x10"; JNull; JNum 8.5; JNum 1e21]
  = [8.5; 12; nan; nan; 0.5; 1000; 0; nan; 8.5; 1e21].
Proof. vm_compute. reflexivity. Qed.

Example StringToNumber_whole :
  map StringToNumber ["8.50"; " 12abc"; ""; "  "; "0x10"; "0500"; "0abc"; "1e"]
  = [8.5; nan; 0; 0; 16; 500; nan; nan].
Proof. vm_compute. reflexivity. Qed.

(** The end-to-end scenario of the specification: a salary of 900, 9
    standard hours, twenty days of 9 hours in January 2025 and one advance of
    2000 deducted in that month. *)
Example twenty_days_of_january :
  let days :=
    map (fun d => Attendance.mk "e1" ("2025-01-" ++ d) (JStr "9.00") false false (JStr "0"))
        ["01"; "02"; "03"; "04"; "05"; "06"; "07"; "08"; "09"; "10";
         "11"; "12"; "13"; "14"; "15"; "16"; "17"; "18"; "19"; "20"] in
  computePayroll IsoDate.timeValue [Examples.worker 900] days
    [Advance.mk "e1" (JNum 2000) (Some "2025-01-10") (Some "2025-01")] []
    (Settings.mk (JNum 9) (JNum 6)) "2025-01"
  = [ {| Statement.employee := Examples.worker 900;
         Statement.daysWorked := 20;
         Statement.salaryEarned := 18000;
         Statement.fareTotal := 0;
         Statement.advancePaid := 2000;
         Statement.previousBalance := 0;
         Statement.currentMonthNet := 16000;
         Statement.finalPayable := 16000;
         Statement.paidTotal := JNum 0;
         Statement.remainingDue := 16000;
         Statement.lastPaymentDate := None;
         Statement.paymentProofs := [];
         Statement.status := Unpaid |} ].
Proof. vm_compute. reflexivity. Qed.

(** ** Lists *)

Lemma filter_nothing {A : Type} (f : A -> bool) (l : list A) :
  (forall x, In x l -> f x = false) -> filter f l = [].
Proof.
  induction l as [|x l IH]; intros H; [reflexivity|].
  cbn. rewrite (H x (or_introl eq_refl)). apply IH.
  intros y Hy. apply H. now right.
Qed.

Lemma filter_same {A : Type} (f g : A -> bool) (l : list A) :
  (forall x, In x l -> f x = g x) -> filter f l = filter g l.
Proof.
  induction l as [|x l IH]; intros H; [reflexivity|].
  cbn. rewrite (H x (or_introl eq_refl)).
  rewrite IH; [reflexivity|]. intros y Hy. apply H. now right.
Qed.

(** ** Output shape *)

(** C10. The statement list has the length of the employee list, and the
    statement at each position carries the employee record at that position:
    the output follows the order of the input. *)
Theorem C10_statements_follow_employees :
  forall (DateParse : string -> float) (employees : list Employee.t)
         (attendance : list Attendance.t) (advances : list Advance.t)
         (payments : list Payment.t) (settingsData : Settings.t) (month : string),
    let payroll :=
      computePayroll DateParse employees attendance advances payments
                     settingsData month in
    List.length payroll = List.length employees
    /\ map Statement.employee payroll = employees
    /\ forall i : nat,
         option_map Statement.employee (nth_error payroll i) = nth_error employees i.
Proof.
  intros DateParse employees attendance advances payments settingsData month payroll.
  assert (Hmap : map Statement.employee payroll = employees).
  { subst payroll. unfold computePayroll. rewrite map_map. cbn.
    induction employees as [|e l IH]; cbn; [reflexivity | now rewrite IH]. }
  split; [|split].
  - subst payroll. unfold computePayroll. apply length_map.
  - exact Hmap.
  - intros i. transitivity (nth_error (map Statement.employee payroll) i).
    + symmetry. apply nth_error_map.
    + now rewrite Hmap.
Qed.

(** ** Status *)

Lemma statusOf_cases (remainingDue : float) (totalPaid : JsVal) :
  (statusOf remainingDue totalPaid = Settled <-> num_le remainingDue 0 = true)
  /\ (statusOf remainingDue totalPaid = Partial <->
        num_le remainingDue 0 = false /\ js_gt totalPaid 0 = true)
  /\ (statusOf remainingDue totalPaid = Unpaid <->
        num_le remainingDue 0 = false /\ js_gt totalPaid 0 = false).
Proof.
  unfold statusOf.
  destruct (num_le remainingDue 0); destruct (js_gt totalPaid 0);
    repeat split; intros; try discriminate; try tauto;
    match goal with H : _ /\ _ |- _ => destruct H; discriminate end.
Qed.

(** C8. Every computed statement is "Settled" exactly when
    [remainingDue <= 0], otherwise "Partial" exactly when [paidTotal > 0],
    otherwise "Unpaid", with [remainingDue = finalPayable - paidTotal] and
    [finalPayable = round (currentMonthNet + previousBalance)]. *)
Theorem C8_status_of_every_statement :
  forall (DateParse : string -> float) (employees : list Employee.t)
         (attendance : list Attendance.t) (advances : list Advance.t)
         (payments : list Payment.t) (settingsData : Settings.t) (month : string),
    Forall (status_rule settingsData attendance advances month)
           (computePayroll DateParse employees attendance advances payments
                           settingsData month).
Proof.
  intros. unfold computePayroll. apply Forall_map, Forall_forall.
  intros emp _. unfold status_rule, statementOf, currentMonthNet; cbn.
  split; [reflexivity|]. split; [reflexivity|].
  apply statusOf_cases.
Qed.

(** ** Daily pay *)

(** C5. On a slab-mode day worked longer than the standard hours the pay is
    [basePay + otPay], with [basePay = (salary / standardHours) *
    standardHours] and [otPay = (salary / slabHours) * (workedHours -
    standardHours)]; with 8.5 standard hours, 6 slab hours, a salary of 850
    and 10 hours worked, these are 850, 212.5 and 1062.5. *)
Theorem C5_slab_day_splits :
  (forall (standardHours slabHours : float) (emp : Employee.t) (att : Attendance.t),
      Attendance.slabMode att = true ->
      PrimFloat.ltb standardHours (parseFloat (Attendance.workedHours att)) = true ->
      dailySalary standardHours slabHours emp att
      = basePay standardHours emp + otPay standardHours slabHours emp att)
  /\ (let standardHours := stdHours Settings.defaults in
      let slabHours := slabBase Settings.defaults in
      let emp := Examples.worker 850 in
      standardHours = 8.5 /\ slabHours = 6
      /\ basePay standardHours emp = 850
      /\ otPay standardHours slabHours emp Examples.longDay = 212.5
      /\ dailySalary standardHours slabHours emp Examples.longDay = 1062.5).
Proof.
  split.
  - intros standardHours slabHours emp att Hslab Hover.
    unfold dailySalary, basePay, otPay. now rewrite Hslab, Hover.
  - repeat split; vm_compute; reflexivity.
Qed.

Lemma C5_slab_day_splits_witness :
  Attendance.slabMode Examples.longDay = true
  /\ PrimFloat.ltb 8.5 (parseFloat (Attendance.workedHours Examples.longDay)) = true
  /\ dailySalary 8.5 6 (Examples.worker 850) Examples.longDay
     = basePay 8.5 (Examples.worker 850)
       + otPay 8.5 6 (Examples.worker 850) Examples.longDay.
Proof.
  split; [reflexivity|]. split; [vm_compute; reflexivity|].
  apply (proj1 C5_slab_day_splits); [reflexivity | vm_compute; reflexivity].
Defined.

(** The server's day pay never looks at the Sunday flag. *)
Lemma dailySalary_ignores_sundayMode (std slab : float) (emp : Employee.t)
    (employeeId date : string) (workedHours fare : JsVal) (slabMode b b' : bool) :
  dailySalary std slab emp
    (Attendance.mk employeeId date workedHours slabMode b fare)
  = dailySalary std slab emp
      (Attendance.mk employeeId date workedHours slabMode b' fare).
Proof. reflexivity. Qed.

(** C1. Sunday mode: a row with [sundayMode = true], [slabMode = true], two
    hours worked and a salary of 800.  The attendance table of the client
    shows the flat 800 for the day; the payroll computation pays
    [800 / 8.5 * 2] for it, which is less than 189, and reports 188 as the
    salary earned in the month. *)
Theorem C1_sunday_pay_on_server_and_client :
  let emp := Examples.worker 800 in
  let std := stdHours Settings.defaults in
  let slab := slabBase Settings.defaults in
  Client.computedPay Settings.defaults (Some emp) Examples.sunday = 800
  /\ dailySalary std slab emp Examples.sunday = 800 / 8.5 * 2
  /\ PrimFloat.ltb (dailySalary std slab emp Examples.sunday) 189 = true
  /\ map Statement.salaryEarned
         (computePayroll IsoDate.timeValue [emp] [Examples.sunday] [] []
                         Settings.defaults "2024-01") = [188].
Proof. repeat split; vm_compute; reflexivity. Qed.

(** ** An employee without records *)

Section NoRecords.

Variable DateParse : string -> float.
Variable settingsData : Settings.t.
Variable attendance : list Attendance.t.
Variable advances : list Advance.t.
Variable payments : list Payment.t.
Variable emp : Employee.t.

Hypothesis no_attendance :
  forall a, In a attendance -> Attendance.employeeId a <> Employee.id emp.
Hypothesis no_advance :
  forall a, In a advances -> Advance.employeeId a <> Employee.id emp.
Hypothesis no_payment :
  forall p, In p payments -> Payment.employeeId p <> Employee.id emp.

Lemma no_attendance_rows (month : string) :
  empAtt emp month attendance = [] /\ pastAtt emp month attendance = [].
Proof.
  split; apply filter_nothing; intros a Ha;
    unfold isEmpAtt, isPastAtt;
    apply no_attendance, String.eqb_neq in Ha; now rewrite Ha.
Qed.

Lemma no_advance_rows (month : string) :
  empAdv emp month advances = [] /\ pastAdv emp month advances = [].
Proof.
  split; apply filter_nothing; intros a Ha;
    unfold isEmpAdv, isPastAdv;
    apply no_advance, String.eqb_neq in Ha; now rewrite Ha.
Qed.

Lemma no_payment_rows (month : string) :
  empPay emp month payments = [] /\ pastPay emp month payments = [].
Proof.
  split; apply filter_nothing; intros p Hp;
    unfold isEmpPay, isPastPay;
    apply no_payment, String.eqb_neq in Hp; now rewrite Hp.
Qed.

Lemma no_records_statement (month : string) :
  statementOf DateParse settingsData attendance advances payments month emp
  = {| Statement.employee := emp;
       Statement.daysWorked := 0;
       Statement.salaryEarned := 0;
       Statement.fareTotal := 0;
       Statement.advancePaid := 0;
       Statement.previousBalance := 0;
       Statement.currentMonthNet := 0;
       Statement.finalPayable := 0;
       Statement.paidTotal := JNum 0;
       Statement.remainingDue := 0;
       Statement.lastPaymentDate := None;
       Statement.paymentProofs := [];
       Statement.status := Settled |}.
Proof.
  unfold statementOf, previousBalance.
  destruct (no_attendance_rows month) as [-> ->].
  destruct (no_advance_rows month) as [-> ->].
  destruct (no_payment_rows month) as [-> ->].
  reflexivity.
Qed.

End NoRecords.

(** C2, as amended. An employee without any attendance, advance or payment
    row has, in every month, a previous balance of 0 and a final payable of
    0; nothing remains due, so the status is "Settled". *)
Theorem C2_no_records_is_settled :
  forall (DateParse : string -> float) (settingsData : Settings.t)
         (attendance : list Attendance.t) (advances : list Advance.t)
         (payments : list Payment.t) (emp : Employee.t) (month : string),
    (forall a, In a attendance -> Attendance.employeeId a <> Employee.id emp) ->
    (forall a, In a advances -> Advance.employeeId a <> Employee.id emp) ->
    (forall p, In p payments -> Payment.employeeId p <> Employee.id emp) ->
    let st :=
      statementOf DateParse settingsData attendance advances payments month emp in
    Statement.previousBalance st = 0
    /\ Statement.finalPayable st = 0
    /\ Statement.remainingDue st = 0
    /\ Statement.status st = Settled.
Proof.
  intros DateParse settingsData attendance advances payments emp month Ha Hd Hp st.
  subst st. rewrite no_records_statement by assumption.
  repeat split.
Qed.

Lemma C2_no_records_is_settled_witness :
  let st :=
    statementOf IsoDate.timeValue Settings.defaults
      [Examples.sunday] [Examples.marchAdvance] [] "2024-01" Examples.other in
  Statement.previousBalance st = 0
  /\ Statement.finalPayable st = 0
  /\ Statement.remainingDue st = 0
  /\ Statement.status st = Settled.
Proof.
  apply (C2_no_records_is_settled IsoDate.timeValue Settings.defaults
           [Examples.sunday] [Examples.marchAdvance] [] Examples.other "2024-01").
  - intros a [<-|[]]. discriminate.
  - intros a [<-|[]]. discriminate.
  - intros p [].
Defined.

(** C2, as stated, fails at an employee without records: the statement is
    not "Unpaid". *)
Lemma C2_no_records_not_unpaid :
  let st :=
    statementOf IsoDate.timeValue Settings.defaults [] [] [] "2024-01"
                Examples.other in
  ~ (Statement.previousBalance st = 0
     /\ Statement.finalPayable st = 0
     /\ Statement.status st = Unpaid).
Proof. intros st [_ [_ H]]. vm_compute in H. discriminate. Qed.

(** ** Malformed numeric fields *)

(** A statement is computed from the rows of its own employee only. *)
Lemma filter_own {A : Type} (own f : A -> bool) (l : list A) :
  filter (fun x => own x && f x) l = filter f (filter own l).
Proof.
  induction l as [|x l IH]; [reflexivity|].
  cbn. destruct (own x); cbn; [destruct (f x)|]; now rewrite IH.
Qed.

Lemma statementOf_own_attendance (DateParse : string -> float)
    (settingsData : Settings.t) (attendance attendance' : list Attendance.t)
    (advances : list Advance.t) (payments : list Payment.t)
    (month : string) (emp : Employee.t) :
  filter (ownAttendance emp) attendance = filter (ownAttendance emp) attendance' ->
  statementOf DateParse settingsData attendance advances payments month emp
  = statementOf DateParse settingsData attendance' advances payments month emp.
Proof.
  intros Hown.
  assert (He : empAtt emp month attendance = empAtt emp month attendance').
  { unfold empAtt, isEmpAtt.
    rewrite (filter_own (ownAttendance emp) (fun a => prefix month (Attendance.date a))).
    rewrite (filter_own (ownAttendance emp) (fun a => prefix month (Attendance.date a))).
    now rewrite Hown. }
  assert (Hp : pastAtt emp month attendance = pastAtt emp month attendance').
  { unfold pastAtt, isPastAtt.
    rewrite (filter_own (ownAttendance emp)
               (fun a => String.ltb (Attendance.date a) (month ++ "-01"))).
    rewrite (filter_own (ownAttendance emp)
               (fun a => String.ltb (Attendance.date a) (month ++ "-01"))).
    now rewrite Hown. }
  unfold statementOf, previousBalance. now rewrite He, Hp.
Qed.

(** C3. Non-numeric fields in a batch of two employees.  Hours that are not
    a number make the salary earned, the final payable and the remaining due
    of that employee NaN, where the specification expects the good day alone
    (800);
    so does a salary that is not a number.  A payment amount that is a string
    is concatenated: the amount paid becomes the string "0abc".  The two
    guarded fields behave as specified: a non-numeric fare or advance amount
    counts as 0.  The statement of the other employee is the same with and
    without the malformed rows. *)
Theorem C3_non_numeric_fields :
  let emp := Examples.worker 800 in
  let out := Malformed.statements [emp; Examples.other]
               [Malformed.goodDay; Malformed.badDay; Malformed.otherDay] [] [] in
  map Statement.salaryEarned out = [nan; 700]
  /\ map Statement.finalPayable out = [nan; 700]
  /\ map Statement.remainingDue out = [nan; 700]
  /\ map Statement.salaryEarned
       (Malformed.statements [emp; Examples.other]
          [Malformed.goodDay; Malformed.otherDay] [] []) = [800; 700]
  /\ map Statement.salaryEarned
       (Malformed.statements [Employee.mk "e1" "Asha" (JStr "abc")]
          [Malformed.goodDay] [] []) = [nan]
  /\ map Statement.paidTotal
       (Malformed.statements [emp] [Malformed.goodDay] [] [Malformed.badPayment])
     = [JStr "0abc"]
  /\ map Statement.advancePaid
       (Malformed.statements [emp] [Malformed.goodDay] [Malformed.badAdvance] [])
     = [0]
  /\ map Statement.fareTotal out = [0; 0]
  /\ nth_error out 1
     = nth_error (Malformed.statements [emp; Examples.other]
                    [Malformed.goodDay; Malformed.otherDay] [] []) 1.
Proof. repeat split; vm_compute; reflexivity. Qed.

(** ** Settings *)

Lemma payroll_depends_on_hours (DateParse : string -> float)
    (employees : list Employee.t) (attendance : list Attendance.t)
    (advances : list Advance.t) (payments : list Payment.t)
    (s s' : Settings.t) (month : string) :
  stdHours s = stdHours s' -> slabBase s = slabBase s' ->
  computePayroll DateParse employees attendance advances payments s month
  = computePayroll DateParse employees attendance advances payments s' month.
Proof.
  intros Hstd Hslab. unfold computePayroll. apply map_ext. intros emp.
  unfold statementOf, previousBalance. now rewrite Hstd, Hslab.
Qed.

Lemma zero_is_falsy (v : JsVal) : is_zero v = true -> ToBoolean v = false.
Proof.
  destruct v as [|x|s]; cbn; try discriminate.
  intros H. unfold truthy_number. now rewrite H.
Qed.

(** C4, as amended. A settings write is stored as it comes, zero included,
    and answered with the stored row.  The payroll computation replaces a
    standard hours or slab hours setting that is the number zero by the
    default (8.5, 6) before it divides: the divisor is not zero and the
    statements are those of the default. *)
Theorem C4_zero_hours_stored_and_defaulted :
  (forall (row : Settings.t) (standardHours slabHours : JsVal),
      SettingsStore.postSettings (Some row)
        (SettingsStore.mkBody (Some standardHours) (Some slabHours))
      = (Some (Settings.mk standardHours slabHours),
         SettingsStore.Json (Settings.mk standardHours slabHours)))
  /\ (forall s : Settings.t,
        is_zero (Settings.standardHours s) = true ->
        stdHours s = 8.5 /\ PrimFloat.eqb (stdHours s) 0 = false)
  /\ (forall s : Settings.t,
        is_zero (Settings.slabHours s) = true ->
        slabBase s = 6 /\ PrimFloat.eqb (slabBase s) 0 = false)
  /\ (forall (DateParse : string -> float) (employees : list Employee.t)
             (attendance : list Attendance.t) (advances : list Advance.t)
             (payments : list Payment.t) (s : Settings.t) (month : string),
        is_zero (Settings.standardHours s) = true ->
        is_zero (Settings.slabHours s) = true ->
        computePayroll DateParse employees attendance advances payments s month
        = computePayroll DateParse employees attendance advances payments
                         Settings.defaults month).
Proof.
  assert (Hstd : forall s, is_zero (Settings.standardHours s) = true -> stdHours s = 8.5).
  { intros s H. unfold stdHours, js_or. rewrite (zero_is_falsy _ H).
    vm_compute. reflexivity. }
  assert (Hslab : forall s, is_zero (Settings.slabHours s) = true -> slabBase s = 6).
  { intros s H. unfold slabBase, js_or. rewrite (zero_is_falsy _ H).
    vm_compute. reflexivity. }
  split; [reflexivity|]. split; [|split].
  - intros s H. rewrite (Hstd s H). split; vm_compute; reflexivity.
  - intros s H. rewrite (Hslab s H). split; vm_compute; reflexivity.
  - intros DateParse employees attendance advances payments s month H1 H2.
    apply payroll_depends_on_hours.
    + rewrite (Hstd s H1). vm_compute. reflexivity.
    + rewrite (Hslab s H2). vm_compute. reflexivity.
Qed.

Lemma C4_zero_hours_stored_and_defaulted_witness :
  is_zero (Settings.standardHours ZeroHours.stored) = true
  /\ is_zero (Settings.slabHours ZeroHours.stored) = true
  /\ stdHours ZeroHours.stored = 8.5
  /\ slabBase ZeroHours.stored = 6
  /\ computePayroll IsoDate.timeValue [Examples.worker 850] [Examples.longDay]
                    [] [] ZeroHours.stored "2024-01"
     = computePayroll IsoDate.timeValue [Examples.worker 850] [Examples.longDay]
                      [] [] Settings.defaults "2024-01".
Proof.
  destruct C4_zero_hours_stored_and_defaulted as [_ [Hstd [Hslab Hpay]]].
  split; [reflexivity|]. split; [reflexivity|].
  split; [apply (Hstd ZeroHours.stored); reflexivity|].
  split; [apply (Hslab ZeroHours.stored); reflexivity|].
  apply (Hpay IsoDate.timeValue); reflexivity.
Defined.

(** C4, as stated, fails: the write of zero hours is answered with the stored
    row, not rejected, and the day pay computed afterwards is 1062.5, not 0. *)
Lemma C4_zero_hours_not_rejected :
  ~ rejected (SettingsStore.postSettings (Some Settings.defaults) ZeroHours.zeroBody)
  /\ ZeroHours.stored = Settings.mk (JNum 0) (JNum 0)
  /\ dailySalary (stdHours ZeroHours.stored) (slabBase ZeroHours.stored)
       (Examples.worker 850) Examples.longDay = 1062.5.
Proof.
  split; [intros H; exact H|]. split; [reflexivity|]. vm_compute. reflexivity.
Qed.

(** ** The month an advance is deducted in *)

Lemma ltb_not_leb (s t : string) :
  String.ltb s t = true -> String.leb t s = false.
Proof.
  unfold String.ltb, String.leb. rewrite (String.compare_antisym s t).
  destruct (String.compare t s); cbn; congruence.
Qed.

Lemma In_empAdv (emp : Employee.t) (month : string)
    (advances : list Advance.t) (a : Advance.t) :
  In a (empAdv emp month advances) <->
  In a advances /\ Advance.employeeId a = Employee.id emp
  /\ effectiveMonth a = month.
Proof.
  unfold empAdv, isEmpAdv. rewrite filter_In.
  destruct (String.eqb_spec (Advance.employeeId a) (Employee.id emp)); cbn.
  - rewrite String.eqb_eq. tauto.
  - split; [intros [_ H]; discriminate | tauto].
Qed.

Lemma In_pastAdv (emp : Employee.t) (month : string)
    (advances : list Advance.t) (a : Advance.t) :
  In a (pastAdv emp month advances) <->
  In a advances /\ Advance.employeeId a = Employee.id emp
  /\ String.ltb (effectiveMonth a) month = true.
Proof.
  unfold pastAdv, isPastAdv. rewrite filter_In.
  destruct (String.eqb_spec (Advance.employeeId a) (Employee.id emp)); cbn.
  - tauto.
  - split; [intros [_ H]; discriminate | tauto].
Qed.

Lemma isEmpAdv_deductedIn (emp : Employee.t) (month : string) (a : Advance.t) :
  isEmpAdv emp month a = deductedIn emp month a.
Proof. unfold isEmpAdv, deductedIn. now destruct (String.eqb _ _). Qed.

Lemma isPastAdv_deductedBefore (emp : Employee.t) (month : string) (a : Advance.t) :
  isPastAdv emp month a = deductedBefore emp month a.
Proof. unfold isPastAdv, deductedBefore. now destruct (String.eqb _ _). Qed.

Lemma sum_of_filter (keep counts : Advance.t -> bool) (l : list Advance.t)
    (total : float) :
  (forall a, keep a = counts a) ->
  fold_left (fun sum adv => sum + amountOf adv) (filter keep l) total
  = totalFrom counts l total.
Proof.
  intros Hsame. revert total.
  induction l as [|a l IH]; intros total; [reflexivity|].
  cbn [filter totalFrom]. rewrite <- Hsame.
  destruct (keep a); cbn [fold_left]; apply IH.
Qed.

Lemma sumAdvance_empAdv (emp : Employee.t) (month : string)
    (advances : list Advance.t) :
  sumAdvance (empAdv emp month advances) = advanceTotal emp month advances.
Proof. apply sum_of_filter, isEmpAdv_deductedIn. Qed.

Lemma sumAdvance_pastAdv (emp : Employee.t) (month : string)
    (advances : list Advance.t) :
  sumAdvance (pastAdv emp month advances) = pastDeductions emp month advances.
Proof. apply sum_of_filter, isPastAdv_deductedBefore. Qed.

Lemma totalFrom_app (counts : Advance.t -> bool) (l l' : list Advance.t)
    (total : float) :
  totalFrom counts (l ++ l')%list total
  = totalFrom counts l' (totalFrom counts l total).
Proof.
  revert total. induction l as [|a l IH]; intros total; [reflexivity|].
  cbn [app totalFrom]. apply IH.
Qed.

Lemma totalFrom_counted (counts : Advance.t -> bool) (l l' : list Advance.t)
    (a : Advance.t) :
  counts a = true ->
  totalFrom counts (l ++ a :: l')%list 0
  = totalFrom counts l' (totalFrom counts l 0 + amountOf a).
Proof. intros H. rewrite totalFrom_app. cbn [totalFrom]. now rewrite H. Qed.

Lemma totalFrom_left_out (counts : Advance.t -> bool) (l l' : list Advance.t)
    (a : Advance.t) :
  counts a = false ->
  totalFrom counts (l ++ a :: l')%list 0 = totalFrom counts (l ++ l')%list 0.
Proof. intros H. rewrite !totalFrom_app. cbn [totalFrom]. now rewrite H. Qed.

Lemma previousBalance_deductions (settingsData : Settings.t) (emp : Employee.t)
    (attendance : list Attendance.t) (advances : list Advance.t)
    (payments : list Payment.t) (month : string) :
  previousBalance settingsData emp attendance advances payments month
  = Math_round
      ((sumPastEarnings (stdHours settingsData) (slabBase settingsData) emp
          (pastAtt emp month attendance)
        - pastDeductions emp month advances)
       - ToNumber (sumPaid (pastPay emp month payments))).
Proof. unfold previousBalance. now rewrite sumAdvance_pastAdv. Qed.

(** C6. The effective deduction month of an advance is its
    [deductionMonth] when it has one, else the first seven characters of its
    date.  An advance is summed into the advance total of a month exactly
    when that month is its effective month, and into the past deductions of
    a month exactly when its effective month is before it.  An advance dated
    2024-01-15 with deduction month 2024-03 is therefore in the advance total
    of March only and in the past deductions of no month up to March, although
    its date is before February.

    The totals themselves: the [advancePaid] of every statement is the
    advance total of the specification, its [previousBalance] is rounded from
    the past earnings less the past deductions of the specification less the
    past payments.  Wherever the advance of January stands among the advances,
    the [advancePaid] of March passes through the addition of its amount, the
    [advancePaid] of every other month and the [previousBalance] of every
    month up to March are what they are without it, and the past deductions
    of every later month pass through the addition of its amount. *)
Theorem C6_deduction_month_governs :
  (forall (a : Advance.t) (m : string),
      Advance.deductionMonth a = Some m -> m <> "" -> effectiveMonth a = m)
  /\ (forall (a : Advance.t) (d : string),
        Advance.deductionMonth a = None \/ Advance.deductionMonth a = Some "" ->
        Advance.date a = Some d -> effectiveMonth a = substring 0 7 d)
  /\ (forall (emp : Employee.t) (month : string) (advances : list Advance.t)
             (a : Advance.t),
        (In a (empAdv emp month advances) <->
           In a advances /\ Advance.employeeId a = Employee.id emp
           /\ effectiveMonth a = month)
        /\ (In a (pastAdv emp month advances) <->
              In a advances /\ Advance.employeeId a = Employee.id emp
              /\ String.ltb (effectiveMonth a) month = true))
  /\ (forall (emp : Employee.t) (advances : list Advance.t) (a : Advance.t)
             (month : string),
        Advance.date a = Some "2024-01-15" ->
        Advance.deductionMonth a = Some "2024-03" ->
        Advance.employeeId a = Employee.id emp ->
        In a advances ->
        (In a (empAdv emp month advances) <-> month = "2024-03")
        /\ (String.leb month "2024-03" = true ->
            ~ In a (pastAdv emp month advances)))
  /\ String.ltb "2024-01-15" "2024-02-01" = true
  /\ (let one month :=
        statementOf IsoDate.timeValue Settings.defaults [] [Examples.marchAdvance]
                    [] month (Examples.worker 850) in
      map (fun m => Statement.advancePaid (one m))
          ["2024-01"; "2024-02"; "2024-03"; "2024-04"] = [0; 0; 500; 0]
      /\ map (fun m => Statement.previousBalance (one m))
             ["2024-01"; "2024-02"; "2024-03"; "2024-04"] = [0; 0; 0; -500])
  /\ (forall (DateParse : string -> float) (settingsData : Settings.t)
             (attendance : list Attendance.t) (advances : list Advance.t)
             (payments : list Payment.t) (month : string) (emp : Employee.t),
        let st := statementOf DateParse settingsData attendance advances
                              payments month emp in
        Statement.advancePaid st = advanceTotal emp month advances
        /\ Statement.previousBalance st
           = Math_round
               ((sumPastEarnings (stdHours settingsData) (slabBase settingsData)
                   emp (pastAtt emp month attendance)
                 - pastDeductions emp month advances)
                - ToNumber (sumPaid (pastPay emp month payments))))
  /\ (forall (DateParse : string -> float) (settingsData : Settings.t)
             (attendance : list Attendance.t) (payments : list Payment.t)
             (emp : Employee.t) (before after : list Advance.t) (a : Advance.t)
             (month : string),
        Advance.date a = Some "2024-01-15" ->
        Advance.deductionMonth a = Some "2024-03" ->
        Advance.employeeId a = Employee.id emp ->
        let st m advances :=
          statementOf DateParse settingsData attendance advances payments m emp in
        Statement.advancePaid (st "2024-03" (before ++ a :: after)%list)
        = totalFrom (deductedIn emp "2024-03") after
            (Statement.advancePaid (st "2024-03" before) + amountOf a)
        /\ (month <> "2024-03" ->
            Statement.advancePaid (st month (before ++ a :: after)%list)
            = Statement.advancePaid (st month (before ++ after)%list))
        /\ (String.leb month "2024-03" = true ->
            Statement.previousBalance (st month (before ++ a :: after)%list)
            = Statement.previousBalance (st month (before ++ after)%list))
        /\ (String.ltb "2024-03" month = true ->
            pastDeductions emp month (before ++ a :: after)%list
            = totalFrom (deductedBefore emp month) after
                (pastDeductions emp month before + amountOf a)))
  /\ (let one month :=
        statementOf IsoDate.timeValue Settings.defaults [] Deductions.advances
                    [] month (Examples.worker 850) in
      map (fun m => Statement.advancePaid (one m))
          ["2024-01"; "2024-02"; "2024-03"; "2024-04"] = [0; 0; 700; 0]
      /\ map (fun m => Statement.previousBalance (one m))
             ["2024-01"; "2024-02"; "2024-03"; "2024-04"] = [0; 0; 0; -700]).
Proof.
  split; [|split; [|split; [|split; [|split; [|split; [|split; [|split]]]]]]].
  - intros a m Hm Hne. unfold effectiveMonth. rewrite Hm. cbn.
    apply String.eqb_neq in Hne. now rewrite Hne.
  - intros a d Hm Hd. unfold effectiveMonth. rewrite Hd.
    assert (Hfall : str_or (Advance.deductionMonth a)
                      (if String.eqb d "" then "" else substring 0 7 d)
                    = if String.eqb d "" then "" else substring 0 7 d).
    { destruct Hm as [-> | ->]; reflexivity. }
    rewrite Hfall. destruct (String.eqb_spec d ""); [subst; reflexivity | reflexivity].
  - intros emp month advances a. split; [apply In_empAdv | apply In_pastAdv].
  - intros emp advances a month Hd Hm He Hin.
    assert (Heff : effectiveMonth a = "2024-03").
    { unfold effectiveMonth. rewrite Hm. reflexivity. }
    split.
    + rewrite In_empAdv, Heff. split; [intros [_ [_ H]]; now symmetry | intros ->; tauto].
    + intros Hle Hpast. apply In_pastAdv in Hpast. destruct Hpast as [_ [_ Hlt]].
      rewrite Heff in Hlt. apply ltb_not_leb in Hlt. congruence.
  - reflexivity.
  - split; vm_compute; reflexivity.
  - intros DateParse settingsData attendance advances payments month emp st.
    subst st. unfold statementOf.
    cbn [Statement.advancePaid Statement.previousBalance]. split.
    + apply sumAdvance_empAdv.
    + apply previousBalance_deductions.
  - intros DateParse settingsData attendance payments emp before after a month
           Hd Hm He st.
    assert (Heff : effectiveMonth a = "2024-03").
    { unfold effectiveMonth. rewrite Hm. reflexivity. }
    assert (Hadv : forall m l, Statement.advancePaid (st m l) = advanceTotal emp m l).
    { intros m l. subst st. unfold statementOf. cbn [Statement.advancePaid].
      apply sumAdvance_empAdv. }
    assert (Hbal : forall m l,
               Statement.previousBalance (st m l)
               = previousBalance settingsData emp attendance l payments m).
    { intros m l. reflexivity. }
    split; [|split; [|split]].
    + rewrite !Hadv. unfold advanceTotal. apply totalFrom_counted.
      unfold deductedIn. now rewrite He, Heff, !String.eqb_refl.
    + intros Hne. rewrite !Hadv. unfold advanceTotal. apply totalFrom_left_out.
      unfold deductedIn. rewrite Heff.
      destruct (String.eqb_spec "2024-03" month) as [E|E];
        [now subst month | apply andb_false_r].
    + intros Hle. rewrite !Hbal, !previousBalance_deductions.
      unfold pastDeductions. rewrite totalFrom_left_out; [reflexivity|].
      unfold deductedBefore. rewrite Heff.
      destruct (String.ltb "2024-03" month) eqn:Hlt; [|apply andb_false_r].
      apply ltb_not_leb in Hlt. congruence.
    + intros Hlt. unfold pastDeductions. apply totalFrom_counted.
      unfold deductedBefore. now rewrite He, Heff, String.eqb_refl, Hlt.
  - split; vm_compute; reflexivity.
Qed.

Lemma C6_deduction_month_governs_witness :
  (In Examples.marchAdvance
      (empAdv (Examples.worker 850) "2024-03" [Examples.marchAdvance])
   <-> "2024-03" = "2024-03")
  /\ (String.leb "2024-02" "2024-03" = true ->
      ~ In Examples.marchAdvance
           (pastAdv (Examples.worker 850) "2024-02" [Examples.marchAdvance])).
Proof.
  destruct C6_deduction_month_governs as [_ [_ [_ [H _]]]].
  split.
  - apply (H (Examples.worker 850) [Examples.marchAdvance] Examples.marchAdvance
             "2024-03"); try reflexivity. left. reflexivity.
  - apply (H (Examples.worker 850) [Examples.marchAdvance] Examples.marchAdvance
             "2024-02"); try reflexivity. left. reflexivity.
Defined.

(** ** The order of months and dates

    Well-formed months compare as strings the way they follow each other in
    the calendar. *)

Import Calendar.

Section MonthOrder.
Local Open Scope Z_scope.

Lemma digit_of_code (c : ascii) (d : Z) :
  digit_of c = Some d -> code c = d + 48 /\ 0 <= d <= 9.
Proof.
  unfold digit_of.
  destruct ((48 <=? code c) && (code c <=? 57)) eqn:H; [|discriminate].
  intros [= <-]. apply andb_true_iff in H. lia.
Qed.

Lemma ascii_compare_code (c c' : ascii) :
  Ascii.compare c c' = (code c ?= code c').
Proof. unfold Ascii.compare, code. now rewrite N2Z.inj_compare. Qed.

Lemma string_compare_refl (s : string) : String.compare s s = Eq.
Proof.
  induction s as [|c s IH]; [reflexivity|].
  cbn. rewrite ascii_compare_code, Z.compare_refl. exact IH.
Qed.

Lemma string_compare_eq (s t : string) : String.compare s t = Eq <-> s = t.
Proof.
  split; [apply String.compare_eq_iff | intros ->; apply string_compare_refl].
Qed.

Local Opaque Z.mul Z.add.

Lemma parse_month_bounds (s : string) (y m : Z) :
  parse_month s = Some (y, m) -> 0 <= y <= 9999 /\ 1 <= m <= 12.
Proof.
  unfold parse_month.
  destruct s as [|c1 [|c2 [|c3 [|c4 [|c5 [|c6 [|c7 [|? ?]]]]]]]]; try discriminate.
  destruct (digit_of c1) as [a|] eqn:H1; [|discriminate].
  destruct (digit_of c2) as [b|] eqn:H2; [|discriminate].
  destruct (digit_of c3) as [c|] eqn:H3; [|discriminate].
  destruct (digit_of c4) as [d|] eqn:H4; [|discriminate].
  destruct (digit_of c6) as [e|] eqn:H6; [|discriminate].
  destruct (digit_of c7) as [f|] eqn:H7; [|discriminate].
  destruct (Ascii.eqb c5 "-" && (1 <=? 10 * e + f) && (10 * e + f <=? 12)) eqn:Hc;
    [|discriminate].
  intros [= <- <-].
  apply digit_of_code in H1, H2, H3, H4.
  apply andb_true_iff in Hc. destruct Hc as [Hc Hm].
  apply andb_true_iff in Hc. destruct Hc as [_ Hc]. lia.
Qed.

Lemma parse_month_compare (s t : string) (k k' : Z * Z) :
  parse_month s = Some k -> parse_month t = Some k' ->
  String.compare s t = (month_key k ?= month_key k').
Proof.
  unfold parse_month.
  destruct s as [|c1 [|c2 [|c3 [|c4 [|c5 [|c6 [|c7 [|? ?]]]]]]]]; try discriminate.
  destruct t as [|c1' [|c2' [|c3' [|c4' [|c5' [|c6' [|c7' [|? ?]]]]]]]]; try discriminate.
  destruct (digit_of c1) as [a|] eqn:H1; [|discriminate].
  destruct (digit_of c2) as [b|] eqn:H2; [|discriminate].
  destruct (digit_of c3) as [c|] eqn:H3; [|discriminate].
  destruct (digit_of c4) as [d|] eqn:H4; [|discriminate].
  destruct (digit_of c6) as [e|] eqn:H6; [|discriminate].
  destruct (digit_of c7) as [f|] eqn:H7; [|discriminate].
  destruct (Ascii.eqb c5 "-" && (1 <=? 10 * e + f) && (10 * e + f <=? 12)) eqn:Hc;
    [|discriminate].
  intros [= <-].
  destruct (digit_of c1') as [a'|] eqn:H1'; [|discriminate].
  destruct (digit_of c2') as [b'|] eqn:H2'; [|discriminate].
  destruct (digit_of c3') as [c'|] eqn:H3'; [|discriminate].
  destruct (digit_of c4') as [d'|] eqn:H4'; [|discriminate].
  destruct (digit_of c6') as [e'|] eqn:H6'; [|discriminate].
  destruct (digit_of c7') as [f'|] eqn:H7'; [|discriminate].
  destruct (Ascii.eqb c5' "-" && (1 <=? 10 * e' + f') && (10 * e' + f' <=? 12)) eqn:Hc';
    [|discriminate].
  intros [= <-].
  apply digit_of_code in H1, H2, H3, H4, H6, H7, H1', H2', H3', H4', H6', H7'.
  apply andb_true_iff in Hc, Hc'. destruct Hc as [Hc _], Hc' as [Hc' _].
  apply andb_true_iff in Hc, Hc'. destruct Hc as [Hc _], Hc' as [Hc' _].
  apply Ascii.eqb_eq in Hc, Hc'. subst c5 c5'.
  unfold month_key. cbn [String.compare fst snd].
  rewrite !ascii_compare_code.
  destruct H1 as [-> ?], H2 as [-> ?], H3 as [-> ?], H4 as [-> ?],
           H6 as [-> ?], H7 as [-> ?], H1' as [-> ?], H2' as [-> ?],
           H3' as [-> ?], H4' as [-> ?], H6' as [-> ?], H7' as [-> ?].
  rewrite (Z.compare_refl (code "-")).
  repeat
    match goal with
    | |- match (?x ?= ?y) with _ => _ end = _ =>
        destruct (Z.compare_spec x y);
        [ | symmetry; apply Z.compare_lt_iff; lia
          | symmetry; apply Z.compare_gt_iff; lia ]
    end.
  symmetry. apply Z.compare_eq_iff. lia.
Qed.


Lemma is_next_month_keys (m m' : string) :
  is_next_month m m' = true ->
  exists y k y' k',
    parse_month m = Some (y, k) /\ parse_month m' = Some (y', k')
    /\ (if k =? 12 then y' = y + 1 /\ k' = 1 else y' = y /\ k' = k + 1).
Proof.
  unfold is_next_month.
  destruct (parse_month m) as [[y k]|]; [|discriminate].
  destruct (parse_month m') as [[y' k']|]; [|discriminate].
  intros H. exists y, k, y', k'. split; [reflexivity|]. split; [reflexivity|].
  destruct (k =? 12); apply andb_true_iff in H; lia.
Qed.

(** Among well-formed months, the months before the next month are the
    months before this one and this one. *)
Lemma before_next_month (a m m' : string) :
  is_next_month m m' = true -> wf_month a = true ->
  String.ltb a m' = String.ltb a m || String.eqb a m.
Proof.
  intros Hnext Ha. unfold wf_month in Ha.
  destruct (parse_month a) as [[ya ka]|] eqn:Pa; [|discriminate].
  destruct (is_next_month_keys m m' Hnext) as (y & k & y' & k' & Pm & Pm' & Hstep).
  pose proof (parse_month_bounds _ _ _ Pa) as Ba.
  pose proof (parse_month_bounds _ _ _ Pm) as Bm.
  pose proof (parse_month_bounds _ _ _ Pm') as Bm'.
  unfold String.ltb.
  rewrite (parse_month_compare a m' _ _ Pa Pm'), (parse_month_compare a m _ _ Pa Pm).
  unfold month_key; cbn [fst snd].
  destruct (String.eqb_spec a m) as [E|E].
  - subst a. rewrite Pa in Pm. injection Pm as -> ->.
    rewrite Z.compare_refl. cbn.
    replace (100 * y + k ?= 100 * y' + k') with Lt; [reflexivity|].
    symmetry. apply Z.compare_lt_iff. destruct (k =? 12) eqn:K; lia.
  - rewrite orb_false_r.
    assert (Hne : 100 * ya + ka <> 100 * y + k).
    { intros Heq. apply E, string_compare_eq.
      rewrite (parse_month_compare a m _ _ Pa Pm). unfold month_key; cbn [fst snd].
      now apply Z.compare_eq_iff. }
    destruct (Z.compare_spec (100 * ya + ka) (100 * y' + k'));
      destruct (Z.compare_spec (100 * ya + ka) (100 * y + k));
      try reflexivity; exfalso; destruct (k =? 12) eqn:K; lia.
Qed.

End MonthOrder.

Lemma before_next_month_or_empty (a m m' : string) :
  is_next_month m m' = true -> a = "" \/ wf_month a = true ->
  String.ltb a m' = String.ltb a m || String.eqb a m.
Proof.
  intros Hnext [-> | Ha]; [|now apply before_next_month].
  apply is_next_month_keys in Hnext.
  destruct Hnext as (y & k & y' & k' & Pm & Pm' & _).
  destruct m; [discriminate|]. destruct m'; [discriminate|]. reflexivity.
Qed.

(** *** Dates against months *)

Lemma substring_drop (n : nat) (s : string) : substring 0 n s ++ drop n s = s.
Proof.
  revert s. induction n as [|n IH]; intros [|c s]; cbn; try reflexivity.
  now rewrite IH.
Qed.

Lemma wf_month_length (s : string) : wf_month s = true -> String.length s = 7%nat.
Proof.
  unfold wf_month, parse_month.
  destruct s as [|c1 [|c2 [|c3 [|c4 [|c5 [|c6 [|c7 [|? ?]]]]]]]];
    try discriminate. reflexivity.
Qed.

Lemma compare_append (p q s t : string) :
  String.length p = String.length q ->
  String.compare (p ++ s) (q ++ t)
  = match String.compare p q with
    | Eq => String.compare s t
    | c => c
    end.
Proof.
  revert q. induction p as [|c p IH]; intros [|c' q]; try discriminate.
  - reflexivity.
  - intros [= Hlen]. cbn. destruct (Ascii.compare c c'); auto.
Qed.

Lemma prefix_append (p q s : string) :
  String.length p = String.length q ->
  prefix q (p ++ s) = String.eqb p q.
Proof.
  revert q. induction p as [|c p IH]; intros [|c' q]; try discriminate.
  - intros _. destruct s; reflexivity.
  - intros [= Hlen]. cbn.
    destruct (ascii_dec c' c) as [->|Hne].
    + rewrite Ascii.eqb_refl. now apply IH.
    + destruct (Ascii.eqb_spec c c'); [congruence | reflexivity].
Qed.

Lemma wf_day_not_before (r : string) :
  wf_day r = true -> String.ltb r "-01" = false.
Proof.
  unfold wf_day.
  destruct r as [|sep [|d1 [|d2 [|? ?]]]]; try discriminate.
  destruct (digit_of d1) as [a|] eqn:H1; [|discriminate].
  destruct (digit_of d2) as [b|] eqn:H2; [|discriminate].
  intros H. apply andb_true_iff in H. destruct H as [H _].
  apply andb_true_iff in H. destruct H as [Hsep Hday].
  apply Ascii.eqb_eq in Hsep. subst sep.
  apply digit_of_code in H1, H2. destruct H1 as [C1 ?], H2 as [C2 ?].
  unfold String.ltb. cbn [String.compare].
  rewrite !ascii_compare_code, C1, C2.
  change (code "-") with 45%Z. change (code "0") with 48%Z. change (code "1") with 49%Z.
  cbn [Z.compare Pos.compare Pos.compare_cont].
  destruct (Z.compare_spec (a + 48) 48); [|exfalso; lia|reflexivity].
  destruct (Z.compare_spec (b + 48) 49); [reflexivity|exfalso; lia|reflexivity].
Qed.

Section DateOrder.

Variables (d m : string).
Hypothesis date_ok : wf_date d = true.
Hypothesis month_ok : wf_month m = true.

Lemma date_split :
  d = substring 0 7 d ++ drop 7 d
  /\ String.length (substring 0 7 d) = String.length m
  /\ wf_month (substring 0 7 d) = true /\ wf_day (drop 7 d) = true.
Proof.
  unfold wf_date in date_ok. apply andb_true_iff in date_ok.
  destruct date_ok as [Hm Hd].
  split; [symmetry; apply substring_drop|].
  split; [|now split].
  now rewrite (wf_month_length _ Hm), (wf_month_length _ month_ok).
Qed.

Lemma date_before_month :
  String.ltb d (m ++ "-01") = String.ltb (substring 0 7 d) m.
Proof.
  destruct date_split as (Hd & Hlen & _ & Hday).
  rewrite Hd at 1. unfold String.ltb at 1.
  rewrite (compare_append _ _ _ _ Hlen).
  pose proof (wf_day_not_before _ Hday) as Hnb. unfold String.ltb in *.
  destruct (String.compare (substring 0 7 d) m); [exact Hnb | reflexivity | reflexivity].
Qed.

Lemma date_in_month : prefix m d = String.eqb (substring 0 7 d) m.
Proof.
  destruct date_split as (Hd & Hlen & _ & _).
  rewrite Hd at 1. now apply prefix_append.
Qed.

End DateOrder.

(** ** Carry-forward over an idle month *)

Lemma filter_empty_false {A : Type} (f : A -> bool) (l : list A) (x : A) :
  filter f l = [] -> In x l -> f x = false.
Proof.
  intros He Hin. destruct (f x) eqn:Hf; [|reflexivity].
  assert (Hx : In x (filter f l)) by (apply filter_In; now split).
  rewrite He in Hx. destruct Hx.
Qed.

Lemma is_next_month_wf (m m' : string) :
  is_next_month m m' = true -> wf_month m = true /\ wf_month m' = true.
Proof.
  intros H. destruct (is_next_month_keys m m' H) as (y & k & y' & k' & P & P' & _).
  unfold wf_month. now rewrite P, P'.
Qed.

Section CarryForward.

Variable settingsData : Settings.t.
Variable emp : Employee.t.
Variable attendance : list Attendance.t.
Variable advances : list Advance.t.
Variable payments : list Payment.t.
Variables m m' : string.

Hypothesis next : is_next_month m m' = true.

Hypothesis dates_ok :
  forall a, In a attendance -> Attendance.employeeId a = Employee.id emp ->
            wf_date (Attendance.date a) = true.
Hypothesis deductions_ok :
  forall a, In a advances -> Advance.employeeId a = Employee.id emp ->
            effectiveMonth a = "" \/ wf_month (effectiveMonth a) = true.
Hypothesis months_ok :
  forall p, In p payments -> Payment.employeeId p = Employee.id emp ->
            wf_month (Payment.salaryMonth p) = true.

Hypothesis no_attendance : empAtt emp m attendance = [].
Hypothesis no_advance : empAdv emp m advances = [].
Hypothesis no_payment : empPay emp m payments = [].

Lemma pastAtt_next : pastAtt emp m' attendance = pastAtt emp m attendance.
Proof.
  destruct (is_next_month_wf m m' next) as [Wm Wm'].
  apply filter_same. intros a Ha.
  pose proof (filter_empty_false _ _ a no_attendance Ha) as Hidle.
  unfold isPastAtt, isEmpAtt in *.
  destruct (String.eqb_spec (Attendance.employeeId a) (Employee.id emp)) as [E|E];
    [|reflexivity].
  cbn in *. pose proof (dates_ok a Ha E) as Wd.
  rewrite (date_before_month _ _ Wd Wm'), (date_before_month _ _ Wd Wm).
  rewrite (date_in_month _ _ Wd Wm) in Hidle.
  destruct (date_split _ _ Wd Wm) as (_ & _ & Wp & _).
  rewrite (before_next_month _ _ _ next Wp), Hidle. apply orb_false_r.
Qed.

Lemma pastAdv_next : pastAdv emp m' advances = pastAdv emp m advances.
Proof.
  apply filter_same. intros a Ha.
  pose proof (filter_empty_false _ _ a no_advance Ha) as Hidle.
  unfold isPastAdv, isEmpAdv in *.
  destruct (String.eqb_spec (Advance.employeeId a) (Employee.id emp)) as [E|E];
    [|reflexivity].
  cbn in *.
  rewrite (before_next_month_or_empty _ _ _ next (deductions_ok a Ha E)), Hidle.
  apply orb_false_r.
Qed.

Lemma pastPay_next : pastPay emp m' payments = pastPay emp m payments.
Proof.
  apply filter_same. intros p Hp.
  pose proof (filter_empty_false _ _ p no_payment Hp) as Hidle.
  unfold isPastPay, isEmpPay in *.
  destruct (String.eqb_spec (Payment.employeeId p) (Employee.id emp)) as [E|E];
    [|reflexivity].
  cbn in *.
  rewrite (before_next_month _ _ _ next (months_ok p Hp E)), Hidle.
  apply orb_false_r.
Qed.

Lemma previousBalance_next :
  previousBalance settingsData emp attendance advances payments m'
  = previousBalance settingsData emp attendance advances payments m.
Proof.
  unfold previousBalance. now rewrite pastAtt_next, pastAdv_next, pastPay_next.
Qed.

End CarryForward.

(** C7. Carry-forward over an idle month.  The rows of the employee are
    well formed (dates [YYYY-MM-DD], deduction and salary months [YYYY-MM],
    an advance without either counting under the empty month).  If the
    employee has no attendance row dated in month [m], no advance deducted in
    [m] and no payment for [m], then the previous balance of the statement of
    the next calendar month is the previous balance of the statement of [m]. *)
Theorem C7_idle_month_keeps_balance :
  forall (DateParse : string -> float) (settingsData : Settings.t)
         (emp : Employee.t) (attendance : list Attendance.t)
         (advances : list Advance.t) (payments : list Payment.t)
         (m m' : string),
    is_next_month m m' = true ->
    (forall a, In a attendance -> Attendance.employeeId a = Employee.id emp ->
               wf_date (Attendance.date a) = true) ->
    (forall a, In a advances -> Advance.employeeId a = Employee.id emp ->
               effectiveMonth a = "" \/ wf_month (effectiveMonth a) = true) ->
    (forall p, In p payments -> Payment.employeeId p = Employee.id emp ->
               wf_month (Payment.salaryMonth p) = true) ->
    empAtt emp m attendance = [] ->
    empAdv emp m advances = [] ->
    empPay emp m payments = [] ->
    Statement.previousBalance
      (statementOf DateParse settingsData attendance advances payments m' emp)
    = Statement.previousBalance
        (statementOf DateParse settingsData attendance advances payments m emp).
Proof.
  intros DateParse settingsData emp attendance advances payments m m'
         Hnext Hdates Hded Hmonths Hatt Hadv Hpay.
  unfold statementOf; cbn [Statement.previousBalance].
  now apply previousBalance_next.
Qed.

Lemma C7_idle_month_keeps_balance_witness :
  let balance month :=
    Statement.previousBalance
      (statementOf IsoDate.timeValue Settings.defaults Idle.attendance
                   Idle.advances Idle.payments month (Examples.worker 850)) in
  balance "2024-02" = balance "2024-01" /\ balance "2024-01" = 350.
Proof.
  split; [|vm_compute; reflexivity].
  apply (C7_idle_month_keeps_balance IsoDate.timeValue Settings.defaults
           (Examples.worker 850) Idle.attendance Idle.advances Idle.payments
           "2024-01" "2024-02").
  - reflexivity.
  - intros a [<-|[<-|[<-|[]]]] _; reflexivity.
  - intros a [<-|[<-|[]]] _; right; reflexivity.
  - intros p [<-|[<-|[<-|[]]]] _; reflexivity.
  - reflexivity.
  - reflexivity.
  - reflexivity.
Defined.

(** ** Runs over the store *)

Import Store.

Local Close Scope string_scope.
Local Close Scope float_scope.

Lemma nth_old (h ext : store) (r : ref) (a d : array) :
  nth_error h r = Some a -> nth r (h ++ ext) d = a.
Proof.
  intros H. rewrite app_nth1 by (apply nth_error_Some; congruence).
  now apply nth_error_nth.
Qed.

Lemma nth_new (h ext : store) (k : nat) (d : array) :
  nth (List.length h + k) (h ++ ext) d = nth k ext d.
Proof. apply app_nth2_plus. Qed.

Lemma update_new (h ext : store) (k : nat) (a : array) :
  update (List.length h + k) a (h ++ ext) = h ++ update k a ext.
Proof.
  induction h as [|b h IH]; cbn; [reflexivity|].
  destruct ext; now rewrite IH.
Qed.

(** Running one step on a store [h ++ ext]: [h] is the store the caller
    had, [ext] the arrays allocated since. *)
Lemma bind_assoc {A B C : Type} (m : M A) (f : A -> M B) (g : B -> M C) (h : store) :
  bind (bind m f) g h = bind m (fun x => bind (f x) g) h.
Proof. unfold bind. now destruct (m h). Qed.

Lemma load_old_step {A : Type} (k : array -> M A) (h ext : store) (r : ref) (a : array) :
  nth_error h r = Some a -> bind (load r) k (h ++ ext) = k a (h ++ ext).
Proof. intros H. unfold bind, load. now rewrite (nth_old _ _ _ _ _ H). Qed.

Lemma load_new_step {A : Type} (k : array -> M A) (h ext : store) (j : nat) (a : array) :
  nth_error ext j = Some a ->
  bind (load (List.length h + j)) k (h ++ ext) = k a (h ++ ext).
Proof.
  intros H. unfold bind, load. rewrite nth_new. now rewrite (nth_error_nth _ _ _ H).
Qed.

Lemma alloc_step {A : Type} (k : ref -> M A) (h ext : store) (a : array) :
  bind (alloc a) k (h ++ ext) = k (List.length h + List.length ext) (h ++ (ext ++ [a])).
Proof. unfold bind, alloc. now rewrite length_app, app_assoc. Qed.

Lemma write_new_step {A : Type} (k : unit -> M A) (h ext : store) (j : nat) (a : array) :
  bind (write (List.length h + j) a) k (h ++ ext) = k tt (h ++ update j a ext).
Proof. unfold bind, write. now rewrite update_new. Qed.

Ltac store_step :=
  first
    [ rewrite bind_assoc
    | rewrite alloc_step
    | rewrite write_new_step
    | erewrite load_new_step by (cbn; reflexivity)
    | erewrite load_old_step by eassumption ];
  cbn [List.length app update asAttendance asAdvances asPayments asStrings].

Section Runs.

Variable DateParse : string -> float.
Variable settingsData : Settings.t.
Variables attendance advances payments : ref.
Variable att : list Attendance.t.
Variable adv : list Advance.t.
Variable pay : list Payment.t.
Variable month : string.

Let holds := Store.holds attendance advances payments att adv pay.

Lemma holds_app (h ext : store) : holds h -> holds (h ++ ext).
Proof.
  intros (Ha & Hd & Hp).
  repeat split; rewrite nth_error_app1; try assumption;
    apply nth_error_Some; congruence.
Qed.

Lemma statementM_run (emp : Employee.t) (h : store) :
  holds h ->
  exists fresh,
    statementM DateParse settingsData attendance advances payments month emp h
    = (statementOf DateParse settingsData att adv pay month emp, h ++ fresh).
Proof.
  intros (Ha & Hd & Hp).
  enough (exists fresh,
            statementM DateParse settingsData attendance advances payments month
                       emp (h ++ [])
            = (statementOf DateParse settingsData att adv pay month emp, h ++ fresh))
    as E by (now rewrite app_nil_r in E).
  unfold statementM, filterAttendance, filterAdvances, filterPayments,
    sortPayments, mapScreenshot.
  repeat store_step.
  eexists. reflexivity.
Qed.

Lemma mapM_statementM_run (emps : list Employee.t) (h : store) :
  holds h ->
  exists fresh,
    mapM (statementM DateParse settingsData attendance advances payments month)
         emps h
    = (map (statementOf DateParse settingsData att adv pay month) emps, h ++ fresh).
Proof.
  revert h. induction emps as [|emp emps IH]; intros h Hh.
  - exists []. cbn. unfold ret. now rewrite app_nil_r.
  - destruct (statementM_run emp h Hh) as [fresh1 E1].
    destruct (IH (h ++ fresh1) (holds_app h fresh1 Hh)) as [fresh2 E2].
    exists (fresh1 ++ fresh2). cbn [mapM map]. unfold bind at 1. rewrite E1.
    unfold bind at 1. rewrite E2. unfold ret. now rewrite app_assoc.
Qed.

Lemma payrollM_run (employees : ref) (emps : list Employee.t) (h : store) :
  nth_error h employees = Some (Employees emps) -> holds h ->
  exists fresh,
    payrollM DateParse employees attendance advances payments settingsData month h
    = (computePayroll DateParse emps att adv pay settingsData month, h ++ fresh).
Proof.
  intros He Hh. unfold payrollM, bind at 1, load.
  rewrite (nth_error_nth _ _ _ He). cbn [asEmployees].
  apply mapM_statementM_run, Hh.
Qed.

End Runs.

(** C9. The computation is a function of the contents of the four
    collections, the settings and the month, and it leaves every array the
    store held before the call as it was: a first run and a second run on the
    store the first one left return the same statement list, which is the one
    determined by the contents, both leave the arrays of the caller in
    place, and a run on any other store with the same contents returns the
    same list. *)
Theorem C9_runs_agree_and_inputs_stay :
  forall (DateParse : string -> float) (h : store)
         (employees attendance advances payments : ref)
         (emps : list Employee.t) (att : list Attendance.t)
         (adv : list Advance.t) (pay : list Payment.t)
         (settingsData : Settings.t) (month : string),
    nth_error h employees = Some (Employees emps) ->
    nth_error h attendance = Some (AttendanceRows att) ->
    nth_error h advances = Some (Advances adv) ->
    nth_error h payments = Some (Payments pay) ->
    let run := payrollM DateParse employees attendance advances payments
                        settingsData month in
    let first := run h in
    let second := run (snd first) in
    fst first = computePayroll DateParse emps att adv pay settingsData month
    /\ fst second = fst first
    /\ (forall (r : ref) (a : array),
          nth_error h r = Some a ->
          nth_error (snd first) r = Some a /\ nth_error (snd second) r = Some a)
    /\ (forall (h' : store) (employees' attendance' advances' payments' : ref),
          nth_error h' employees' = Some (Employees emps) ->
          nth_error h' attendance' = Some (AttendanceRows att) ->
          nth_error h' advances' = Some (Advances adv) ->
          nth_error h' payments' = Some (Payments pay) ->
          fst (payrollM DateParse employees' attendance' advances' payments'
                        settingsData month h') = fst first).
Proof.
  intros DateParse h employees attendance advances payments emps att adv pay
         settingsData month He Ha Hd Hp run first second.
  assert (Hh : holds attendance advances payments att adv pay h) by (now repeat split).
  destruct (payrollM_run DateParse settingsData attendance advances payments
              att adv pay month employees emps h He Hh) as [fresh1 E1].
  assert (Hkeep : forall r a, nth_error h r = Some a ->
                              nth_error (h ++ fresh1) r = Some a).
  { intros r a H. rewrite nth_error_app1; [exact H|].
    apply nth_error_Some. congruence. }
  destruct (payrollM_run DateParse settingsData attendance advances payments
              att adv pay month employees emps (h ++ fresh1)
              (Hkeep _ _ He) (holds_app _ _ _ _ _ _ h fresh1 Hh)) as [fresh2 E2].
  subst second first run. cbv beta. rewrite E1. cbn [fst snd]. rewrite E2. cbn [fst snd].
  split; [reflexivity|]. split; [reflexivity|]. split.
  - intros r a H. split; [now apply Hkeep|].
    rewrite nth_error_app1; [now apply Hkeep|].
    apply nth_error_Some. rewrite (Hkeep _ _ H). discriminate.
  - intros h' employees' attendance' advances' payments' He' Ha' Hd' Hp'.
    destruct (payrollM_run DateParse settingsData attendance' advances' payments'
                att adv pay month employees' emps h' He') as [fresh' E'];
      [now repeat split|].
    now rewrite E'.
Qed.

Lemma C9_runs_agree_and_inputs_stay_witness :
  let run := payrollM IsoDate.timeValue 0 1 2 3 Settings.defaults "2024-02" in
  fst (run (snd (run Stored.store))) = fst (run Stored.store)
  /\ nth_error (snd (run Stored.store)) 3 = Some (Payments Idle.payments)
  /\ map Statement.lastPaymentDate (fst (run Stored.store))
     = [Some "2024-03-05"%string; None].
Proof.
  destruct (C9_runs_agree_and_inputs_stay IsoDate.timeValue Stored.store 0 1 2 3
              [Examples.worker 850; Examples.other] Idle.attendance Idle.advances
              Idle.payments Settings.defaults "2024-02"%string
              eq_refl eq_refl eq_refl eq_refl) as (H1 & H2 & H3 & _).
  split; [exact H2|]. split; [apply (H3 3); reflexivity|].
  cbv zeta. rewrite H1. vm_compute. reflexivity.
Defined.

(** [sort] does rearrange the array it is called on: sorting the payments
    collection itself would be seen by the caller. *)
Example sortPayments_rearranges_its_array :
  nth_error (snd (sortPayments (byDateDesc IsoDate.timeValue) 3 Stored.store)) 3
  = Some (Payments [ Payment.mk "e1" "2024-02" (JNum 50) "2024-03-05" (Some "proof-2");
                     Payment.mk "e1" "2024-02" (JNum 100) "2024-03-01" (Some "proof-1");
                     Payment.mk "e1" "2023-12" (JNum 300) "2024-01-05" None ]%string).
Proof. vm_compute. reflexivity. Qed.

(** * Further properties *)

Local Open Scope string_scope.
Local Open Scope float_scope.

(** ** The payroll computation, beyond the claims *)

Lemma filter_map_swap {A B : Type} (g : A -> B) (p : B -> bool) (l : list A) :
  filter p (map g l) = map g (filter (fun x => p (g x)) l).
Proof.
  induction l as [|x l IH]; [reflexivity|].
  cbn. destruct (p (g x)); cbn; now rewrite IH.
Qed.

Lemma fold_left_map_same {A C : Type} (g : A -> A) (step : C -> A -> C)
    (l : list A) (init : C) :
  (forall acc x, step acc (g x) = step acc x) ->
  fold_left step (map g l) init = fold_left step l init.
Proof.
  intros H. revert init. induction l as [|x l IH]; intros init; [reflexivity|].
  cbn. now rewrite H, IH.
Qed.

Lemma fold_left_same {A B : Type} (f g : A -> B -> A) (l : list B) (init : A) :
  (forall acc x, f acc x = g acc x) -> fold_left f l init = fold_left g l init.
Proof.
  intros H. revert init. induction l as [|x l IH]; intros init; [reflexivity|].
  cbn. now rewrite H, IH.
Qed.

Lemma fold_left_skip {A B : Type} (keep : B -> bool) (step : A -> B -> A)
    (l : list B) (init : A) :
  fold_left (fun acc x => if keep x then step acc x else acc) l init
  = fold_left step (filter keep l) init.
Proof.
  revert init. induction l as [|x l IH]; intros init; [reflexivity|].
  cbn. destruct (keep x); cbn; apply IH.
Qed.

Lemma statementOf_withSunday (f : Attendance.t -> bool)
    (DateParse : string -> float) (s : Settings.t)
    (attendance : list Attendance.t) (advances : list Advance.t)
    (payments : list Payment.t) (month : string) (emp : Employee.t) :
  statementOf DateParse s (map (withSunday f) attendance) advances payments month emp
  = statementOf DateParse s attendance advances payments month emp.
Proof.
  unfold statementOf, previousBalance, empAtt, pastAtt.
  rewrite !filter_map_swap.
  unfold sumSalary, sumFare, sumPastEarnings.
  rewrite !fold_left_map_same by reflexivity.
  now rewrite length_map.
Qed.

(** X1. The payroll never reads the Sunday flag: whatever the flags of the
    attendance rows are set to, the statement list is the same. *)
Theorem payroll_never_reads_sundayMode :
  forall (f : Attendance.t -> bool) (DateParse : string -> float)
         (employees : list Employee.t) (attendance : list Attendance.t)
         (advances : list Advance.t) (payments : list Payment.t)
         (settingsData : Settings.t) (month : string),
    computePayroll DateParse employees (map (withSunday f) attendance)
                   advances payments settingsData month
    = computePayroll DateParse employees attendance advances payments
                     settingsData month.
Proof.
  intros. unfold computePayroll. apply map_ext. intros emp.
  apply statementOf_withSunday.
Qed.

Lemma isEmpAdv_own (emp : Employee.t) (month : string) (a : Advance.t) :
  isEmpAdv emp month a = ownAdvance emp a && String.eqb (effectiveMonth a) month.
Proof. unfold isEmpAdv, ownAdvance. now destruct (String.eqb _ _). Qed.

Lemma isPastAdv_own (emp : Employee.t) (month : string) (a : Advance.t) :
  isPastAdv emp month a = ownAdvance emp a && String.ltb (effectiveMonth a) month.
Proof. unfold isPastAdv, ownAdvance. now destruct (String.eqb _ _). Qed.

Lemma filter_through_own {A : Type} (own f g : A -> bool) (l l' : list A) :
  (forall x, f x = own x && g x) ->
  filter own l = filter own l' -> filter f l = filter f l'.
Proof.
  intros Hf Hown.
  rewrite (filter_ext f (fun x => own x && g x) Hf l).
  rewrite (filter_ext f (fun x => own x && g x) Hf l').
  rewrite !filter_own. now rewrite Hown.
Qed.

(** X2. A statement is computed from the rows that carry the identifier of
    its employee and from nothing else: two data sets that agree on these
    rows give the same statement, so rows of other employees and orphaned
    rows never change it. *)
Theorem statement_reads_own_rows_only :
  forall (DateParse : string -> float) (settingsData : Settings.t)
         (emp : Employee.t) (month : string)
         (attendance attendance' : list Attendance.t)
         (advances advances' : list Advance.t)
         (payments payments' : list Payment.t),
    filter (ownAttendance emp) attendance = filter (ownAttendance emp) attendance' ->
    filter (ownAdvance emp) advances = filter (ownAdvance emp) advances' ->
    filter (ownPayment emp) payments = filter (ownPayment emp) payments' ->
    statementOf DateParse settingsData attendance advances payments month emp
    = statementOf DateParse settingsData attendance' advances' payments' month emp.
Proof.
  intros DateParse settingsData emp month attendance attendance' advances advances'
         payments payments' Hatt Hadv Hpay.
  rewrite (statementOf_own_attendance DateParse settingsData attendance attendance'
             advances payments month emp Hatt).
  assert (E1 : empAdv emp month advances = empAdv emp month advances').
  { apply (filter_through_own (ownAdvance emp) _ _ _ _ (isEmpAdv_own emp month) Hadv). }
  assert (E2 : pastAdv emp month advances = pastAdv emp month advances').
  { apply (filter_through_own (ownAdvance emp) _ _ _ _ (isPastAdv_own emp month) Hadv). }
  assert (E3 : empPay emp month payments = empPay emp month payments').
  { apply (filter_through_own (ownPayment emp) _
             (fun p => String.eqb (Payment.salaryMonth p) month));
      [reflexivity | exact Hpay]. }
  assert (E4 : pastPay emp month payments = pastPay emp month payments').
  { apply (filter_through_own (ownPayment emp) _
             (fun p => String.ltb (Payment.salaryMonth p) month));
      [reflexivity | exact Hpay]. }
  unfold statementOf, previousBalance. now rewrite E1, E2, E3, E4.
Qed.

Lemma statement_reads_own_rows_only_witness :
  statementOf IsoDate.timeValue Settings.defaults
    (Samples.orphanDay :: Idle.attendance) (Samples.orphanAdvance :: Idle.advances)
    (Samples.orphanPayment :: Idle.payments) "2024-02" (Examples.worker 850)
  = statementOf IsoDate.timeValue Settings.defaults Idle.attendance Idle.advances
      Idle.payments "2024-02" (Examples.worker 850).
Proof.
  apply (statement_reads_own_rows_only IsoDate.timeValue Settings.defaults
           (Examples.worker 850) "2024-02"); reflexivity.
Defined.

(** X3. Off Sundays the attendance table of the client shows the day pay
    the server computes: for a row without the Sunday flag and with hours
    that are given, under the same two settings, [computedPay] of the table
    is [dailySalary] of the payroll. *)
Theorem table_pay_is_server_pay_off_sunday :
  forall (globalSettings settingsData : Settings.t) (emp : Employee.t)
         (att : Attendance.t),
    Attendance.sundayMode att = false ->
    ToBoolean (Attendance.workedHours att) = true ->
    ToNumber (Settings.standardHours globalSettings) = stdHours settingsData ->
    ToNumber (Settings.slabHours globalSettings) = slabBase settingsData ->
    Client.computedPay globalSettings (Some emp) att
    = dailySalary (stdHours settingsData) (slabBase settingsData) emp att.
Proof.
  intros gs sd emp att Hsun Hh Hstd Hslab.
  unfold Client.computedPay, dailySalary. rewrite Hh, Hsun, Hstd, Hslab.
  destruct (Attendance.slabMode att); cbn [andb]; [|reflexivity].
  now destruct (PrimFloat.ltb _ _).
Qed.

Lemma table_pay_is_server_pay_off_sunday_witness :
  Client.computedPay Settings.defaults (Some (Examples.worker 850)) Examples.longDay
  = dailySalary (stdHours Settings.defaults) (slabBase Settings.defaults)
                (Examples.worker 850) Examples.longDay.
Proof.
  apply (table_pay_is_server_pay_off_sunday Settings.defaults Settings.defaults);
    vm_compute; reflexivity.
Defined.

Lemma isText_js_add (a b : JsVal) : isText (js_add a b) = isText a || isText b.
Proof. destruct a, b; reflexivity. Qed.

Lemma isText_fold (l : list Payment.t) (acc : JsVal) :
  isText (fold_left (fun sum p => js_add sum (Payment.amount p)) l acc)
  = isText acc || existsb (fun p => isText (Payment.amount p)) l.
Proof.
  revert acc. induction l as [|p l IH]; intros acc; cbn; [now rewrite orb_false_r|].
  now rewrite IH, isText_js_add, orb_assoc.
Qed.

(** X4. The amount paid of a statement is a string exactly when one of the
    payments of the employee for the month has a string as its amount;
    otherwise it is a number. *)
Theorem paid_total_is_text_iff_an_amount_is :
  forall (DateParse : string -> float) (settingsData : Settings.t)
         (attendance : list Attendance.t) (advances : list Advance.t)
         (payments : list Payment.t) (month : string) (emp : Employee.t),
    isText (Statement.paidTotal
              (statementOf DateParse settingsData attendance advances payments
                           month emp))
    = existsb (fun p => isText (Payment.amount p)) (empPay emp month payments).
Proof.
  intros. unfold statementOf; cbn [Statement.paidTotal]. unfold sumPaid.
  now rewrite isText_fold.
Qed.

Lemma insert_sorted_perm {A : Type} (cmp : A -> A -> float) (x : A) (l : list A) :
  Permutation (insert_sorted cmp x l) (x :: l).
Proof.
  induction l as [|y l IH]; cbn; [reflexivity|].
  destruct (PrimFloat.ltb 0 (cmp x y)); [|reflexivity].
  rewrite IH. apply perm_swap.
Qed.

Lemma sort_perm {A : Type} (cmp : A -> A -> float) (l : list A) :
  Permutation (sort cmp l) l.
Proof.
  induction l as [|x l IH]; cbn; [reflexivity|].
  rewrite insert_sorted_perm. now constructor.
Qed.

Lemma filter_perm {A : Type} (f : A -> bool) (l l' : list A) :
  Permutation l l' -> Permutation (filter f l) (filter f l').
Proof.
  induction 1 as [|x l l' _ IH|x y l|l l' l'' _ IH1 _ IH2]; cbn.
  - reflexivity.
  - destruct (f x); [now constructor | exact IH].
  - destruct (f x), (f y); try reflexivity. apply perm_swap.
  - now transitivity (filter f l').
Qed.

(** X5. The last payment date and the payment proofs of a statement come
    from the payments of the employee for the month: there is no date exactly
    when there is no such payment, a date is the date of one of them, and the
    proofs are their screenshots, each once. *)
Theorem last_payment_comes_from_the_month :
  forall (DateParse : string -> float) (settingsData : Settings.t)
         (attendance : list Attendance.t) (advances : list Advance.t)
         (payments : list Payment.t) (month : string) (emp : Employee.t),
    let st := statementOf DateParse settingsData attendance advances payments
                          month emp in
    let paid := empPay emp month payments in
    (Statement.lastPaymentDate st = None <-> paid = [])
    /\ (forall d, Statement.lastPaymentDate st = Some d ->
                  exists p, In p paid /\ Payment.date p = d)
    /\ Permutation (Statement.paymentProofs st) (screenshots paid).
Proof.
  intros DateParse settingsData attendance advances payments month emp st paid.
  subst st. unfold statementOf; cbn [Statement.lastPaymentDate Statement.paymentProofs].
  fold paid.
  pose proof (sort_perm (byDateDesc DateParse) paid) as Hperm.
  split; [|split].
  - destruct (sort (byDateDesc DateParse) paid) as [|p l] eqn:E; cbn.
    + split; [intros _|reflexivity].
      apply Permutation_nil. now symmetry.
    + split; [discriminate|]. intros Hp. rewrite Hp in Hperm.
      apply Permutation_sym, Permutation_nil in Hperm. discriminate.
  - intros d Hd.
    destruct (sort (byDateDesc DateParse) paid) as [|p l] eqn:E; [discriminate|].
    injection Hd as <-. exists p. split; [|reflexivity].
    apply (Permutation_in _ Hperm). now left.
  - unfold screenshots. apply Permutation_map, filter_perm, Hperm.
Qed.

(** ** The dashboard *)

(** X6. The amount the dashboard shows as earned by an employee in a month
    is the sum the server forms for past months (day pay, then fare, row by
    row) over the rows of the employee in that month whose hours parse to a
    number; a row with other hours is left out together with its fare. *)
Theorem dashboard_sums_numeric_rows_like_the_server :
  forall (globalSettings : Settings.t) (emp : Employee.t) (month : string)
         (attendanceData : list Attendance.t),
    Dashboard.empEarned globalSettings emp month attendanceData
    = sumPastEarnings (ToNumber (Settings.standardHours globalSettings))
                      (ToNumber (Settings.slabHours globalSettings)) emp
                      (filter numericHours (empAtt emp month attendanceData)).
Proof.
  intros gs emp month att. unfold Dashboard.empEarned, sumPastEarnings, empAtt.
  set (rows := filter (isEmpAtt emp month) att).
  rewrite <- fold_left_skip. apply fold_left_same. intros acc a.
  unfold numericHours, fareOf, dailySalary.
  destruct (is_nan (parseFloat (Attendance.workedHours a))); cbn [negb]; [reflexivity|].
  destruct (Attendance.slabMode a); cbn [andb]; [|reflexivity].
  now destruct (PrimFloat.ltb _ _).
Qed.

(** ** The month of a picker and the date of a card *)

Lemma years_ok : forallb year_ok years = true.
Proof. vm_compute. reflexivity. Qed.

Lemma months_ok : forallb month_ok monthIndexes = true.
Proof. vm_compute. reflexivity. Qed.

(** X7. The month a picker starts with is well formed: for a four-digit
    year and a month index from 0 to 11 it is the [YYYY-MM] text whose year is
    that year and whose month is the index plus one. *)
Theorem picker_month_is_well_formed :
  forall (y m : Z),
    (1000 <= y <= 9999)%Z -> (0 <= m <= 11)%Z ->
    Calendar.parse_month (Dashboard.currentMonth (ofZ y) (ofZ m))
    = Some (y, (m + 1)%Z).
Proof.
  intros y m Hy Hm.
  assert (Yok : year_ok y = true).
  { apply (proj1 (forallb_forall year_ok years) years_ok).
    unfold years. apply in_map_iff. exists (Z.to_nat (y - 1000)).
    split; [lia | apply in_seq; lia]. }
  assert (Mok : month_ok m = true).
  { apply (proj1 (forallb_forall month_ok monthIndexes) months_ok).
    unfold monthIndexes. apply in_map_iff. exists (Z.to_nat m).
    split; [lia | apply in_seq; lia]. }
  unfold Dashboard.currentMonth, year_ok, month_ok in *.
  destruct (NumberToString (ofZ y)) as [|a [|b [|c [|d [|? ?]]]]]; try discriminate.
  destruct (JsString.padStart0 2 (NumberToString (ofZ m + 1)))
    as [|e [|f [|? ?]]]; try discriminate.
  cbn [append]. unfold Calendar.parse_month.
  destruct (digit_of a) as [a'|]; [|discriminate].
  destruct (digit_of b) as [b'|]; [|discriminate].
  destruct (digit_of c) as [c'|]; [|discriminate].
  destruct (digit_of d) as [d'|]; [|discriminate].
  destruct (digit_of e) as [e'|]; [|discriminate].
  destruct (digit_of f) as [f'|]; [|discriminate].
  apply Z.eqb_eq in Yok, Mok.
  change (Ascii.eqb "-" "-") with true. cbn [andb]. rewrite Yok, Mok.
  destruct (Z.leb_spec 1 (m + 1)); [|lia].
  destruct (Z.leb_spec (m + 1) 12); [|lia].
  reflexivity.
Qed.

Lemma picker_month_is_well_formed_witness :
  Calendar.parse_month (Dashboard.currentMonth (ofZ 2026) (ofZ 10))
  = Some (2026%Z, (10 + 1)%Z).
Proof. apply (picker_month_is_well_formed 2026 10); lia. Defined.

Lemma digit_is_not_dash (c : ascii) (d : Z) :
  digit_of c = Some d -> Ascii.eqb c "-" = false.
Proof.
  intros H. destruct (Ascii.eqb_spec c "-") as [->|]; [|reflexivity].
  discriminate.
Qed.

(** X8. A payroll card shows a well-formed last payment date
    [YYYY-MM-DD] as day, month and year: [DD/MM/YYYY]. *)
Theorem card_date_is_day_month_year :
  forall d : string,
    Calendar.wf_date d = true ->
    Dashboard.lastDate d
    = substring 8 2 d ++ "/" ++ substring 5 2 d ++ "/" ++ substring 0 4 d.
Proof.
  intros d Hd. unfold Calendar.wf_date in Hd. apply andb_true_iff in Hd.
  destruct Hd as [Hm Hday].
  destruct d as [|y1 [|y2 [|y3 [|y4 [|s1 [|m1 [|m2 [|s2 [|d1 [|d2 [|? ?]]]]]]]]]]];
    try discriminate.
  unfold Calendar.wf_month, Calendar.parse_month in Hm. cbn [substring] in Hm.
  unfold Calendar.wf_day in Hday. cbn [drop] in Hday.
  destruct (digit_of y1) eqn:Y1; [|discriminate].
  destruct (digit_of y2) eqn:Y2; [|discriminate].
  destruct (digit_of y3) eqn:Y3; [|discriminate].
  destruct (digit_of y4) eqn:Y4; [|discriminate].
  destruct (digit_of m1) eqn:M1; [|discriminate].
  destruct (digit_of m2) eqn:M2; [|discriminate].
  destruct (digit_of d1) eqn:D1; [|discriminate].
  destruct (digit_of d2) eqn:D2; [|discriminate].
  destruct (Ascii.eqb_spec s1 "-") as [->|]; [|discriminate].
  destruct (Ascii.eqb_spec s2 "-") as [->|]; [|discriminate].
  unfold Dashboard.lastDate. cbn [JsString.split].
  rewrite (digit_is_not_dash _ _ Y1), (digit_is_not_dash _ _ Y2),
    (digit_is_not_dash _ _ Y3), (digit_is_not_dash _ _ Y4),
    (digit_is_not_dash _ _ M1), (digit_is_not_dash _ _ M2),
    (digit_is_not_dash _ _ D1), (digit_is_not_dash _ _ D2).
  change (Ascii.eqb "-" "-") with true. cbn. reflexivity.
Qed.

Lemma card_date_is_day_month_year_witness :
  Dashboard.lastDate "2024-03-05" = "05/03/2024".
Proof. apply (card_date_is_day_month_year "2024-03-05"). reflexivity. Defined.

(** ** Worked hours *)

Lemma hours_ok_all : forallb hours_ok minuteDiffs = true.
Proof. vm_compute. reflexivity. Qed.

Lemma hours_ok_at (d : Z) : (-1440 < d < 1440)%Z -> hours_ok d = true.
Proof.
  intros H. apply (proj1 (forallb_forall hours_ok minuteDiffs) hours_ok_all).
  unfold minuteDiffs. apply in_map_iff.
  exists (Z.to_nat (d + 1439)). split; [lia|]. apply in_seq. lia.
Qed.

(** X9. Hours of the attendance form.  For two times of a day in whole
    minutes, [d] minutes apart, the hours are the minutes from the first to
    the second divided by 60, the second time counting as the next day when
    it is earlier; they are at least 0 and below 24 (equal times give 0), and
    the text sent as [workedHours] is that number of minutes in hundredths of
    an hour, rounded to the nearest. *)
Theorem preview_hours_wrap_within_a_day :
  forall (start end_ : float) (d : Z),
    (-1440 < d < 1440)%Z ->
    end_ - start = ofZ (d * 60000) ->
    let h := Hours.previewHours start end_ in
    PrimFloat.eqb h (ofZ (elapsed d * 60000) / 3600000) = true
    /\ PrimFloat.leb 0 h = true /\ PrimFloat.ltb h 24 = true
    /\ Hours.previewStored start end_ = showCenti (centiHours (elapsed d)).
Proof.
  intros start end_ d Hd Hdiff h.
  pose proof (hours_ok_at d Hd) as Hok. unfold hours_ok in Hok.
  assert (Hh : h = previewOfDiff (ofZ (d * 60000))).
  { subst h. unfold Hours.previewHours, previewOfDiff. now rewrite Hdiff. }
  unfold Hours.previewStored. fold h. rewrite Hh.
  repeat (apply andb_true_iff in Hok; destruct Hok as [Hok ?]).
  repeat split; try assumption. now apply String.eqb_eq.
Qed.

Lemma preview_hours_wrap_within_a_day_witness :
  let start := ofZ (22 * 60 * 60000) in
  let end_ := ofZ (6 * 60 * 60000) in
  PrimFloat.eqb (Hours.previewHours start end_) 8 = true
  /\ Hours.previewStored start end_ = "8.00".
Proof.
  destruct (preview_hours_wrap_within_a_day (ofZ (22 * 60 * 60000))
              (ofZ (6 * 60 * 60000)) (-960)) as (H1 & _ & _ & H4);
    [lia | vm_compute; reflexivity |].
  split; [exact H1 | exact H4].
Defined.

(** X10. The quick mark and the attendance form store the same hours: for
    the same two times of a day in whole minutes, [markAttendance] and
    [calculatePreview] produce the same [workedHours] text. *)
Theorem quick_mark_stores_the_hours_of_the_form :
  forall (t1 t2 start end_ : float) (d : Z),
    (-1440 < d < 1440)%Z ->
    t2 - t1 = ofZ (d * 60000) ->
    end_ - start = ofZ (d * 60000) ->
    Hours.markStored t1 t2 = Hours.previewStored start end_.
Proof.
  intros t1 t2 start end_ d Hd H1 H2.
  pose proof (hours_ok_at d Hd) as Hok. unfold hours_ok in Hok.
  apply andb_true_iff in Hok. destruct Hok as [_ Hsame]. apply String.eqb_eq in Hsame.
  unfold Hours.markStored, Hours.previewStored, Hours.markHours, Hours.previewHours.
  rewrite H1, H2. exact Hsame.
Qed.

Lemma quick_mark_stores_the_hours_of_the_form_witness :
  Hours.markStored (ofZ (946684800000 + 22 * 3600000)) (ofZ (946684800000 + 6 * 3600000 + 1200000))
  = Hours.previewStored (ofZ (22 * 3600000)) (ofZ (6 * 3600000 + 1200000)).
Proof.
  apply (quick_mark_stores_the_hours_of_the_form _ _ _ _ (-940));
    [lia | vm_compute; reflexivity | vm_compute; reflexivity].
Defined.

(** ** Times on the twelve-hour clock *)

Lemma split_no_sep (sep : ascii) (s : string) :
  JsString.includes (String sep EmptyString) s = false -> JsString.split sep s = [s].
Proof.
  induction s as [|c s IH]; intros H; [reflexivity|].
  cbn [JsString.includes] in H. apply orb_false_iff in H. destruct H as [Hp Hi].
  cbn [JsString.split]. destruct (Ascii.eqb_spec c sep) as [->|Hne].
  - cbn in Hp. destruct (ascii_dec sep sep); [|congruence]. now destruct s.
  - now rewrite (IH Hi).
Qed.

Lemma format_two_characters (a b : ascii) (minutes : string) :
  Ascii.eqb a ":" = false -> Ascii.eqb b ":" = false ->
  JsString.includes ":" minutes = false ->
  TimeFormat.formatTimeTo12h (Some (String a (String b (String ":" minutes))))
  = hourPart (String a (String b EmptyString)) ++ ":" ++ minutes ++ " "
    ++ halfOfDay (String a (String b EmptyString)).
Proof.
  intros Ha Hb Hm. unfold TimeFormat.formatTimeTo12h, hourPart, halfOfDay.
  cbn [JsString.split]. rewrite Ha, Hb, (split_no_sep ":" minutes Hm).
  change (Ascii.eqb ":" ":") with true. cbn [nth]. reflexivity.
Qed.

Ltac one_hour minutes Hm :=
  match goal with
  | |- TimeFormat.formatTimeTo12h (Some (twoDigits ?k ++ _)) = _ =>
      let hh := eval vm_compute in (twoDigits k) in
      change (twoDigits k) with hh at 1
  end;
  cbn [append];
  rewrite format_two_characters by (reflexivity || exact Hm);
  vm_compute; reflexivity.

(** X11. A time [HH:MM] with an hour from 00 to 23 is shown on the
    twelve-hour clock: the hour becomes 12 for 00 and 12 and the hour less
    12 after noon, in two digits, the minutes are kept as they are, and AM or
    PM follows. *)
Theorem time_is_shown_on_the_twelve_hour_clock :
  forall (h : nat) (minutes : string),
    (h < 24)%nat ->
    JsString.includes ":" minutes = false ->
    TimeFormat.formatTimeTo12h (Some (twoDigits h ++ ":" ++ minutes))
    = twoDigits (clock12 h) ++ ":" ++ minutes ++ " "
      ++ (if (h <? 12)%nat then "AM" else "PM").
Proof.
  intros h minutes Hh Hm.
  do 24 (destruct h as [|h]; [one_hour minutes Hm|]).
  lia.
Qed.

Lemma time_is_shown_on_the_twelve_hour_clock_witness :
  TimeFormat.formatTimeTo12h (Some "13:05") = "01:05 PM".
Proof.
  apply (time_is_shown_on_the_twelve_hour_clock 13 "05"); [lia | reflexivity].
Defined.

Local Close Scope float_scope.
Local Close Scope string_scope.

(** ** The retry helper *)

Section RetryFacts.

Context {A : Type}.
Variable operation : nat -> Retry.attempt A.
Variables maxRetries delay : nat.

Lemma loop_calls_bound (remaining i : nat) (lastError : option string)
    (waited : list nat) :
  Retry.calls (Retry.loop operation maxRetries delay remaining i lastError waited)
  <= i + remaining.
Proof.
  revert i lastError waited.
  induction remaining as [|r IH]; intros i lastError waited; cbn; [lia|].
  destruct (operation i) as [v|m]; cbn; [lia|].
  destruct (Retry.isNetworkError m); cbn; [|lia].
  eapply Nat.le_trans; [apply IH | lia].
Qed.

Lemma delaysBefore_S (k : nat) :
  delaysBefore delay (S k) = delaysBefore delay k ++ [delay * (k + 1)].
Proof. unfold delaysBefore. now rewrite seq_S, map_app. Qed.

(** The loop reaches call [k] when the calls before it fail with network
    errors. *)
Lemma retry_reaches (k : nat) :
  k < maxRetries -> networkFailures operation k ->
  Retry.retry operation maxRetries delay
  = Retry.loop operation maxRetries delay (maxRetries - k) k
               (errorBefore operation k) (rev (delaysBefore delay k)).
Proof.
  intros Hk Hfail. unfold Retry.retry.
  induction k as [|k IH].
  - now rewrite Nat.sub_0_r.
  - rewrite IH by (try lia; intros j Hj; apply Hfail; lia).
    destruct (Hfail k (Nat.lt_succ_diag_r k)) as [m [Hop Hnet]].
    replace (maxRetries - k) with (S (maxRetries - S k)) by lia.
    cbn [Retry.loop errorBefore]. rewrite Hop, Hnet.
    replace (k <? maxRetries - 1) with true by (symmetry; apply Nat.ltb_lt; lia).
    now rewrite delaysBefore_S, rev_app_distr.
Qed.

(** X12. [retry] returns the value of the first call that succeeds, when
    the calls before it fail with network errors and it comes within
    [maxRetries] calls; the operation is called no further, and the delays
    waited for are [delay], [2 delay], ... one for each failure. *)
Theorem retry_returns_first_success (k : nat) (value : A) :
  k < maxRetries -> networkFailures operation k ->
  operation k = Retry.Resolved value ->
  Retry.retry operation maxRetries delay
  = Retry.mkRun (Retry.Returned value) (S k) (delaysBefore delay k).
Proof.
  intros Hk Hfail Hop. rewrite (retry_reaches k Hk Hfail).
  replace (maxRetries - k) with (S (maxRetries - S k)) by lia.
  cbn [Retry.loop]. rewrite Hop. now rewrite rev_involutive.
Qed.

(** X13. An error that is not a network error is thrown again at once:
    [retry] ends with the error of the first call that fails otherwise and
    does not call the operation again. *)
Theorem retry_rethrows_other_errors (k : nat) (message : string) :
  k < maxRetries -> networkFailures operation k ->
  operation k = Retry.Rejected message -> Retry.isNetworkError message = false ->
  Retry.retry operation maxRetries delay
  = Retry.mkRun (Retry.Thrown (Some message)) (S k) (delaysBefore delay k).
Proof.
  intros Hk Hfail Hop Hnet. rewrite (retry_reaches k Hk Hfail).
  replace (maxRetries - k) with (S (maxRetries - S k)) by lia.
  cbn [Retry.loop]. rewrite Hop, Hnet. now rewrite rev_involutive.
Qed.

(** X14. When every call fails with a network error, [retry] gives up
    after [maxRetries] calls and throws the error of the last one; it waits
    between the calls but not after the last. *)
Theorem retry_gives_up_after_maxRetries (message : string) :
  networkFailures operation maxRetries ->
  operation (maxRetries - 1) = Retry.Rejected message -> maxRetries > 0 ->
  Retry.retry operation maxRetries delay
  = Retry.mkRun (Retry.Thrown (Some message)) maxRetries
                (delaysBefore delay (maxRetries - 1)).
Proof.
  intros Hfail Hop Hpos.
  rewrite (retry_reaches (maxRetries - 1)) by (try lia; intros j Hj; apply Hfail; lia).
  destruct (Hfail (maxRetries - 1)) as [m [Hop' Hnet]]; [lia|].
  rewrite Hop in Hop'. injection Hop' as <-.
  replace (maxRetries - (maxRetries - 1)) with 1 by lia.
  cbn [Retry.loop]. rewrite Hop, Hnet.
  replace (maxRetries - 1 <? maxRetries - 1) with false
    by (symmetry; apply Nat.ltb_ge; lia).
  rewrite rev_involutive. f_equal. lia.
Qed.

End RetryFacts.

Lemma retry_returns_first_success_witness :
  Retry.retry Samples.flaky 3 500
  = Retry.mkRun (Retry.Returned 7) 3 [500; 1000].
Proof.
  apply (retry_returns_first_success Samples.flaky 3 500 2 7); [lia | | reflexivity].
  intros j Hj. exists "TypeError: fetch failed"%string.
  destruct j as [|[|j]]; [split; reflexivity | split; reflexivity | lia].
Defined.

Lemma retry_rethrows_other_errors_witness :
  Retry.retry Samples.refused 3 500
  = Retry.mkRun (Retry.Thrown (Some "duplicate key value"%string)) 2 [500].
Proof.
  apply (retry_rethrows_other_errors Samples.refused 3 500 1 "duplicate key value");
    [lia | | reflexivity | reflexivity].
  intros j Hj. exists "network timeout"%string.
  destruct j as [|j]; [split; reflexivity | lia].
Defined.

Lemma retry_gives_up_after_maxRetries_witness :
  Retry.retry Samples.offline 3 500
  = Retry.mkRun (Retry.Thrown (Some "ECONNRESET"%string)) 3 [500; 1000].
Proof.
  apply (retry_gives_up_after_maxRetries Samples.offline 3 500 "ECONNRESET");
    [ | reflexivity | lia].
  intros j Hj. exists "ECONNRESET"%string. split; reflexivity.
Defined.

Lemma loop_waits_bound {A : Type} (operation : nat -> Retry.attempt A)
    (maxRetries delay remaining i : nat) (lastError : option string)
    (waited : list nat) :
  List.length waited <= i -> List.length waited <= maxRetries - 1 ->
  List.length
    (Retry.waits (Retry.loop operation maxRetries delay remaining i lastError waited))
  <= maxRetries - 1.
Proof.
  revert i lastError waited.
  induction remaining as [|r IH]; intros i lastError waited Hi Hmax; cbn [Retry.loop].
  - cbn. now rewrite length_rev.
  - destruct (operation i) as [v|m]; [cbn; now rewrite length_rev|].
    destruct (Retry.isNetworkError m); [|cbn; now rewrite length_rev].
    destruct (Nat.ltb_spec i (maxRetries - 1)) as [Hlt|Hge].
    + apply IH; cbn [List.length]; lia.
    + apply IH; lia.
Qed.

(** X22. Whatever the operation does, [retry] calls it at most
    [maxRetries] times and waits at most [maxRetries - 1] times. *)
Theorem retry_never_calls_more :
  forall (A : Type) (operation : nat -> Retry.attempt A) (maxRetries delay : nat),
    Retry.calls (Retry.retry operation maxRetries delay) <= maxRetries
    /\ List.length (Retry.waits (Retry.retry operation maxRetries delay))
       <= maxRetries - 1.
Proof.
  intros A operation maxRetries delay. unfold Retry.retry. split.
  - apply (loop_calls_bound operation maxRetries delay).
  - apply loop_waits_bound; cbn; lia.
Qed.

(** ** Login *)

Local Open Scope string_scope.

(** X15. No login succeeds without a matching password: an answer as
    administrator means the given password is the administrator's (and the
    name is the administrator's up to letter case and surrounding white
    space), an answer as employee names a row of the table whose stored
    password is strictly equal to the given one, and an invalid answer means
    no row of the table matches. *)
Theorem login_needs_a_matching_password :
  forall (ADMIN_USERNAME ADMIN_PASSWORD : string)
         (employees : option (list Login.account)) (c : Login.credentials),
    match Login.login ADMIN_USERNAME ADMIN_PASSWORD employees c with
    | Login.Admin =>
        Login.givenPassword c = Some (JStr ADMIN_PASSWORD)
        /\ JsString.toLowerCase (Login.loginUser c)
           = JsString.toLowerCase ADMIN_USERNAME
    | Login.Employee n i =>
        exists (rows : list Login.account) (e : Login.account) (p : JsVal),
          employees = Some rows /\ In e rows
          /\ n = Login.name e /\ i = Login.id e
          /\ Login.givenPassword c = Some p
          /\ JsString.strict_eq (Login.password e) p = true
    | Login.InvalidCredentials =>
        forall rows e, employees = Some rows -> In e rows ->
                       Login.matches c e = false
    end.
Proof.
  intros A P employees c. unfold Login.login.
  destruct (Login.isAdmin A P c) eqn:Hadmin.
  - unfold Login.isAdmin in Hadmin. apply andb_true_iff in Hadmin.
    destruct Hadmin as [Hu Hp]. apply String.eqb_eq in Hu.
    destruct (Login.givenPassword c) as [[|x|p]|]; try discriminate.
    apply String.eqb_eq in Hp. now subst p.
  - destruct employees as [rows|].
    + destruct (find (Login.matches c) rows) as [e|] eqn:Hfind.
      * apply find_some in Hfind. destruct Hfind as [Hin Hm].
        unfold Login.matches in Hm. apply andb_true_iff in Hm. destruct Hm as [_ Hp].
        destruct (Login.givenPassword c) as [p|] eqn:Hg; [|discriminate].
        exists rows, e, p. repeat split; assumption.
      * intros rows' e [= <-] Hin. now apply (find_none _ _ Hfind).
    + intros rows e H. discriminate.
Qed.

(** X16. A login that gives no user name at all gets in as an employee
    when the table holds an account created without a custom identifier and
    without a password: the empty name equals the empty custom identifier the
    account was given, and the password 123456 is the one it was given. *)
Theorem login_with_no_name_reaches_default_accounts :
  forall (ADMIN_USERNAME ADMIN_PASSWORD : string) (rows : list Login.account)
         (now : string) (bodyName : option string),
    JsString.toLowerCase ADMIN_USERNAME <> "" ->
    exists n i,
      Login.login ADMIN_USERNAME ADMIN_PASSWORD
        (Some (rows ++ [Login.newAccount now bodyName JNull JNull])%list)
        (anonymous (JStr "123456"))
      = Login.Employee n i.
Proof.
  intros A P rows now bodyName Hadmin. unfold Login.login.
  assert (Hna : Login.isAdmin A P (anonymous (JStr "123456")) = false).
  { unfold Login.isAdmin.
    change (Login.loginUser (anonymous (JStr "123456"))) with "".
    change (JsString.toLowerCase "") with "".
    destruct (String.eqb_spec "" (JsString.toLowerCase A)) as [E|E];
      [congruence | reflexivity]. }
  rewrite Hna.
  destruct (find (Login.matches (anonymous (JStr "123456")))
              (rows ++ [Login.newAccount now bodyName JNull JNull])%list)
    as [e|] eqn:Hfind.
  - now exists (Login.name e), (Login.id e).
  - exfalso.
    assert (Hin : In (Login.newAccount now bodyName JNull JNull)
                     (rows ++ [Login.newAccount now bodyName JNull JNull])%list)
      by (apply in_or_app; right; now left).
    pose proof (find_none _ _ Hfind _ Hin) as Hm.
    unfold Login.matches in Hm.
    change (Login.loginUser (anonymous (JStr "123456"))) with "" in Hm.
    cbn in Hm. rewrite orb_true_r in Hm. discriminate.
Qed.

Lemma login_with_no_name_reaches_default_accounts_witness :
  exists n i,
    Login.login "admin" "secret"
      (Some ([] ++ [Login.newAccount "1700000000000" (Some "Asha") JNull JNull])%list)
      (anonymous (JStr "123456"))
    = Login.Employee n i.
Proof.
  apply (login_with_no_name_reaches_default_accounts "admin" "secret" []
           "1700000000000" (Some "Asha")).
  discriminate.
Defined.

(** ** One attendance row per employee and day *)






(** X18. Without an employee or without a date (absent or empty) the
    duplicate check is not made: the row is handed to the store whatever the
    table holds. *)
Theorem attendance_post_without_key_is_not_checked :
  forall (table : list Attendance.t) (body : AttendanceWrite.request)
         (now : string),
    AttendanceWrite.given (AttendanceWrite.employeeId body) = false
    \/ AttendanceWrite.given (AttendanceWrite.date body) = false ->
    exists att, AttendanceWrite.postAttendance table body now
                = AttendanceWrite.Insert att.
Proof.
  intros table body now H. unfold AttendanceWrite.postAttendance.
  destruct H as [-> | ->]; rewrite ?andb_false_r; cbn [andb]; eexists; reflexivity.
Qed.

Lemma attendance_post_without_key_is_not_checked_witness :
  exists att, AttendanceWrite.postAttendance Samples.table Samples.noDate
                "1700000000000" = AttendanceWrite.Insert att.
Proof.
  apply (attendance_post_without_key_is_not_checked Samples.table Samples.noDate).
  right. reflexivity.
Defined.

Local Close Scope string_scope.

(** ** The list of uploads *)

Lemma pushAll_spec (k : Uploads.kind) (rows : list Uploads.source)
    (acc : list Uploads.item) :
  Uploads.pushAll k rows acc
  = acc ++ map (Uploads.toItem k) (filter Uploads.hasScreenshot rows).
Proof.
  unfold Uploads.pushAll. revert acc.
  induction rows as [|r rows IH]; intros acc; cbn; [now rewrite app_nil_r|].
  destruct (Uploads.hasScreenshot r); cbn; rewrite IH; [|reflexivity].
  now rewrite <- app_assoc.
Qed.

(** X19. The uploads list holds the advances and the payments that have a
    screenshot, each once and no other row, whatever the order the sort
    leaves them in; every entry has a screenshot. *)
Theorem uploads_lists_the_rows_with_a_screenshot :
  forall (DateParse : string -> float) (advances payments : list Uploads.source),
    let shown :=
      map (Uploads.toItem Uploads.advance) (filter Uploads.hasScreenshot advances)
      ++ map (Uploads.toItem Uploads.payment)
             (filter Uploads.hasScreenshot payments) in
    Permutation (Uploads.uploadList DateParse advances payments) shown
    /\ Forall (fun i => Uploads.itemScreenshot i <> ""%string)
              (Uploads.uploadList DateParse advances payments).
Proof.
  intros DateParse advances payments shown.
  assert (Hperm : Permutation (Uploads.uploadList DateParse advances payments) shown).
  { unfold Uploads.uploadList. rewrite sort_perm, !pushAll_spec. reflexivity. }
  split; [exact Hperm|].
  apply Forall_forall. intros i Hi.
  apply (Permutation_in _ Hperm) in Hi. subst shown.
  apply in_app_or in Hi.
  assert (Hshot : forall k rows,
            In i (map (Uploads.toItem k) (filter Uploads.hasScreenshot rows)) ->
            Uploads.itemScreenshot i <> ""%string).
  { intros k rows Hin. apply in_map_iff in Hin. destruct Hin as [r [<- Hr]].
    apply filter_In in Hr. destruct Hr as [_ Hr].
    unfold Uploads.hasScreenshot in Hr. unfold Uploads.toItem; cbn.
    destruct (Uploads.screenshot r) as [u|]; [|discriminate]. cbn.
    destruct (String.eqb_spec u ""); [discriminate | assumption]. }
  destruct Hi as [Hi|Hi]; eapply Hshot; eassumption.
Qed.

(** ** Paging through the bucket *)

Section Paging.

Context {file : Type}.
Variable bucket : list file.
Variable listPage : nat -> nat -> list file.

(** The service answers with the slice of the listing asked for. *)
Hypothesis pages : forall offset, listPage 100 offset = firstn 100 (skipn offset bucket).

Lemma collect_rest (fuel offset pagesRead : nat) (acc : list file) :
  (List.length bucket - offset) / 100 < fuel ->
  Storage.collect listPage fuel offset acc pagesRead
  = Some (acc ++ skipn offset bucket,
          pagesRead + (List.length bucket - offset) / 100 + 1).
Proof.
  revert offset pagesRead acc.
  induction fuel as [|fuel IH]; intros offset pagesRead acc Hfuel; [lia|].
  cbn [Storage.collect]. rewrite pages.
  set (rest := skipn offset bucket).
  assert (Hrest : List.length rest = List.length bucket - offset)
    by (subst rest; apply length_skipn).
  destruct (Nat.ltb_spec 0 (List.length (firstn 100 rest))) as [Hpos|Hzero].
  - destruct (Nat.ltb_spec (List.length (firstn 100 rest)) 100) as [Hshort|Hfull].
    + rewrite length_firstn in Hshort.
      rewrite firstn_all2 by lia.
      rewrite (Nat.div_small (List.length bucket - offset) 100) by lia.
      do 2 f_equal. lia.
    + rewrite length_firstn in Hfull.
      assert (Hlen : 100 <= List.length bucket - offset) by lia.
      rewrite IH.
      * rewrite <- app_assoc.
        replace (skipn (offset + 100) bucket) with (skipn 100 rest)
          by (subst rest; rewrite skipn_skipn; f_equal; lia).
        rewrite firstn_skipn. do 2 f_equal.
        replace (List.length bucket - offset)
          with (1 * 100 + (List.length bucket - (offset + 100))) by lia.
        rewrite Nat.div_add_l by lia. lia.
      * replace (List.length bucket - offset)
          with (1 * 100 + (List.length bucket - (offset + 100))) in Hfuel by lia.
        rewrite Nat.div_add_l in Hfuel by lia. lia.
  - rewrite length_firstn in Hzero.
    assert (Hempty : rest = []) by (destruct rest; [reflexivity | cbn in *; lia]).
    rewrite Hempty, app_nil_r.
    rewrite (Nat.div_small (List.length bucket - offset) 100) by lia.
    do 2 f_equal. lia.
Qed.

(** X20. The paging loop of [getStorageUsage] collects every file of the
    bucket once, in the order of the listing, when the service answers each
    request with the slice of the listing asked for; it asks for one page
    more than the number of full pages, and ends. *)
Theorem paging_collects_every_file_once (fuel : nat) :
  List.length bucket / 100 < fuel ->
  Storage.collect listPage fuel 0 [] 0
  = Some (bucket, List.length bucket / 100 + 1).
Proof.
  intros Hfuel. rewrite collect_rest by (now rewrite Nat.sub_0_r).
  now rewrite Nat.sub_0_r.
Qed.

End Paging.

Lemma paging_collects_every_file_once_witness :
  Storage.collect Samples.listPage 3 0 [] 0 = Some (Samples.bucket, 250 / 100 + 1).
Proof.
  apply (paging_collects_every_file_once Samples.bucket Samples.listPage).
  - intros offset. reflexivity.
  - vm_compute. lia.
Defined.

(** ** The file name in a public address *)

Local Open Scope string_scope.

Lemma includes_false_cons (sep : string) (c : ascii) (s : string) :
  JsString.includes sep (String c s) = false ->
  prefix sep (String c s) = false /\ JsString.includes sep s = false.
Proof. cbn [JsString.includes]. intros H. now apply orb_false_iff in H. Qed.

Lemma lastPiece_no_occurrence (sep piece s : string) :
  JsString.includes sep s = false -> JsString.lastPiece sep 0 piece s = piece.
Proof.
  induction s as [|c s IH]; intros H; [reflexivity|].
  apply includes_false_cons in H. destruct H as [Hp Hi].
  cbn [JsString.lastPiece]. rewrite Hp. now apply IH.
Qed.

Lemma lastPiece_skip (sep piece : string) (k : nat) (s : string) :
  (k <= String.length s)%nat ->
  JsString.lastPiece sep k piece s = JsString.lastPiece sep 0 piece (drop k s).
Proof.
  revert s. induction k as [|k IH]; intros s Hk; [now destruct s|].
  destruct s as [|c s]; [cbn in Hk; lia|].
  cbn [JsString.lastPiece drop]. apply IH. cbn in Hk. lia.
Qed.

Lemma prefix_refl_app (p s : string) : prefix p (p ++ s) = true.
Proof.
  induction p as [|c p IH]; cbn; [now destruct s|].
  destruct (ascii_dec c c); [exact IH | congruence].
Qed.

Lemma prefix_of_long (p x y : string) :
  (String.length p <= String.length x)%nat -> prefix p (x ++ y) = prefix p x.
Proof.
  revert x. induction p as [|c p IH]; intros x H.
  - destruct x, y; reflexivity.
  - destruct x as [|c' x]; [cbn in H; lia|].
    cbn. destruct (ascii_dec c c'); [|reflexivity]. apply IH. cbn in H. lia.
Qed.

Lemma drop_app_length (p s : string) : drop (String.length p) (p ++ s) = s.
Proof. induction p as [|c p IH]; cbn; [now destruct s | exact IH]. Qed.

Lemma length_append (p s : string) :
  String.length (p ++ s) = (String.length p + String.length s)%nat.
Proof. induction p as [|c p IH]; cbn; [reflexivity | now rewrite IH]. Qed.

Lemma append_assoc (a b c : string) : (a ++ b) ++ c = a ++ (b ++ c).
Proof. induction a as [|x a IH]; cbn; [reflexivity | now rewrite IH]. Qed.

Lemma includes_app (sep base s : string) :
  JsString.includes sep (base ++ sep ++ s) = true.
Proof.
  induction base as [|c base IH].
  - cbn [append]. destruct sep as [|c sep].
    + destruct s; reflexivity.
    + pose proof (prefix_refl_app (String c sep) s) as P.
      cbn [append] in *. cbn [JsString.includes]. now rewrite P.
  - cbn [append JsString.includes]. rewrite IH. apply orb_true_r.
Qed.

Section FileName.

(** The separator is [stem] followed by one more character. *)
Variables (stem : string) (final : ascii).
Let sep := stem ++ String final EmptyString.

Lemma popSplit_after (base name piece : string) :
  JsString.includes sep (base ++ stem) = false ->
  JsString.includes sep name = false ->
  JsString.lastPiece sep 0 piece (base ++ sep ++ name) = name.
Proof.
  intros Hbase Hname. revert piece.
  assert (Hlen : String.length sep = S (String.length stem)).
  { subst sep. rewrite length_append. cbn. lia. }
  induction base as [|c base IH]; intros piece.
  - cbn [append]. destruct (sep ++ name) as [|c r] eqn:E.
    + destruct sep; [cbn in Hlen; lia | discriminate].
    + cbn [JsString.lastPiece]. rewrite <- E, prefix_refl_app, drop_app_length.
      rewrite Hlen.
      replace (S (String.length stem) - 1)%nat with (String.length stem) by lia.
      rewrite lastPiece_skip.
      * assert (Hr : drop (String.length stem) r = name).
        { assert (Hd : drop (String.length sep) (sep ++ name) = name)
            by apply drop_app_length.
          rewrite E, Hlen in Hd. exact Hd. }
        rewrite Hr. now apply lastPiece_no_occurrence.
      * assert (Hl : String.length (sep ++ name) = String.length (String c r))
          by now rewrite E.
        rewrite length_append, Hlen in Hl. cbn in Hl. lia.
  - cbn [append] in *. apply includes_false_cons in Hbase.
    destruct Hbase as [Hp Hi]. cbn [JsString.lastPiece].
    assert (Hpre : prefix sep (String c (base ++ sep ++ name)) = false).
    { replace (String c (base ++ sep ++ name))
        with (String c (base ++ stem) ++ (String final EmptyString ++ name)).
      - rewrite prefix_of_long; [exact Hp|].
        cbn. rewrite length_append, Hlen. lia.
      - cbn. f_equal. subst sep. now rewrite !append_assoc. }
    rewrite Hpre. now apply IH.
Qed.

End FileName.

(** X21. [deleteFile] finds the name of a file in its public address: when
    the address is a base, [/uploads/] and the name, with no [/uploads/] in
    the name nor earlier in the address, the name removed from the bucket is
    that name. *)
Theorem public_address_gives_back_the_file_name :
  forall base name : string,
    JsString.includes "/uploads/" (base ++ "/uploads") = false ->
    JsString.includes "/uploads/" name = false ->
    Storage.fileNameOf (base ++ "/uploads/" ++ name) = name.
Proof.
  intros base name Hbase Hname. unfold Storage.fileNameOf, JsString.popSplit.
  rewrite (includes_app "/uploads/" base name).
  apply (popSplit_after "/uploads" "/" base name _ Hbase Hname).
Qed.

Lemma public_address_gives_back_the_file_name_witness :
  Storage.fileNameOf
    ("https://x.supabase.co/storage/v1/object/public" ++ "/uploads/"
     ++ "attendance/e1_20240108_in_1700000000000.jpg")
  = "attendance/e1_20240108_in_1700000000000.jpg".
Proof.
  apply (public_address_gives_back_the_file_name
           "https://x.supabase.co/storage/v1/object/public"
           "attendance/e1_20240108_in_1700000000000.jpg");
    vm_compute; reflexivity.
Defined.
